(** * Hospital appointment system: conflict detection, slot grid, booking,
      rescheduling and status updates

    The development embeds the PostgreSQL schema
    (database/hospital_appointment_pg.sql), the model classes Patient,
    Doctor and Appointment (server.js) and the appointment routes
    (routes/index.js) as Rocq functions over an explicit database state, and
    then states the properties of the specification about them.

    Conventions of the embedding:
    - a TIME is a number of seconds after midnight and a DATE a number of
      days after 1970-01-01; TIME plus INTERVAL wraps at 24 hours, as in
      PostgreSQL;
    - a table is the list of its rows; a statement either fails with a
      SQLSTATE or returns its result and the new tables; requests are served
      one at a time;
    - request fields are typed as the JSON values the client sends (numbers
      for ids and durations, strings for dates, times and notes), an absent
      field being [None];
    - the clock and the date parser of the JavaScript engine are parameters
      of a request ([runtime]). *)

From Stdlib Require Import ZArith List String Ascii Bool Lia.
From Stdlib Require Import DecimalString.
Import ListNotations.
Local Open Scope Z_scope.

(* ================================================================== *)
(** ** PostgreSQL values: errors, TIME arithmetic and input casts      *)
(* ================================================================== *)

Module Pg.

(** An error raised by a statement, as node-postgres reports it:
    [err.code] is the SQLSTATE and [err.detail] the detail line. *)
Record pg_error := PgError { code : string; detail : string }.

Inductive result (A : Type) : Type :=
| Ok (a : A)
| Err (e : pg_error).
Arguments Ok {A} a.
Arguments Err {A} e.

Definition bind {A B} (r : result A) (k : A -> result B) : result B :=
  match r with
  | Ok a => k a
  | Err e => Err e
  end.

Definition unique_violation (d : string) := PgError "23505" d.
Definition foreign_key_violation := PgError "23503" EmptyString.
Definition not_null_violation := PgError "23502" EmptyString.
Definition numeric_value_out_of_range := PgError "22003" EmptyString.
Definition invalid_datetime_format := PgError "22007" EmptyString.
Definition datetime_field_overflow := PgError "22008" EmptyString.
Definition invalid_text_representation := PgError "22P02" EmptyString.
(** RAISE EXCEPTION without an explicit SQLSTATE. *)
Definition raise_exception (msg : string) := PgError "P0001" msg.

(** TIME values are seconds since midnight; DATE values are days since
    1970-01-01. *)
Definition SECS_PER_DAY : Z := 86400.

(** [time + (n || ' minutes')::INTERVAL]: the sum of a TIME and an
    INTERVAL is a TIME again, reduced modulo 24 hours. *)
Definition time_pl_minutes (t n : Z) : Z := (t + 60 * n) mod SECS_PER_DAY.

(** Casts of integers to SMALLINT and INTEGER columns and parameters. *)
Definition int2_in (z : Z) : result Z :=
  if (-32768 <=? z) && (z <=? 32767) then Ok z
  else Err numeric_value_out_of_range.

Definition int4_in (z : Z) : result Z :=
  if (-2147483648 <=? z) && (z <=? 2147483647) then Ok z
  else Err numeric_value_out_of_range.

(** An INTEGER parameter bound to a JavaScript number; NaN ([None]) is not
    the text of an integer. *)
Definition int4_of_number (v : option Z) : result Z :=
  match v with
  | Some z => int4_in z
  | None => Err invalid_text_representation
  end.

(** Decimal digits of a text value. *)
Definition digit_of (c : ascii) : option Z :=
  let n := Z.of_nat (nat_of_ascii c) in
  if (48 <=? n) && (n <=? 57) then Some (n - 48) else None.

Definition digits2 (a b : ascii) : option Z :=
  match digit_of a, digit_of b with
  | Some x, Some y => Some (10 * x + y)
  | _, _ => None
  end.

Definition is_colon (c : ascii) : bool := Ascii.eqb c ":"%char.
Definition is_dash (c : ascii) : bool := Ascii.eqb c "-"%char.

Definition hms (h m s : option Z) : result Z :=
  match h, m, s with
  | Some h, Some m, Some s =>
      if (h <=? 23) && (m <=? 59) && (s <=? 59)
      then Ok (h * 3600 + m * 60 + s)
      else Err datetime_field_overflow
  | _, _, _ => Err invalid_datetime_format
  end.

(** Text to TIME.  The spellings H:MM, HH:MM, H:MM:SS and HH:MM:SS are
    covered; any other text is reported as a malformed time (PostgreSQL
    itself reads a few more spellings, which the model does not cover). *)
Definition time_in (s : string) : result Z :=
  match list_ascii_of_string s with
  | [h1; c1; m1; m2] =>
      if is_colon c1
      then hms (digit_of h1) (digits2 m1 m2) (Some 0)
      else Err invalid_datetime_format
  | [h1; h2; c1; m1; m2] =>
      if is_colon c1
      then hms (digits2 h1 h2) (digits2 m1 m2) (Some 0)
      else Err invalid_datetime_format
  | [h1; c1; m1; m2; c2; s1; s2] =>
      if is_colon c1 && is_colon c2
      then hms (digit_of h1) (digits2 m1 m2) (digits2 s1 s2)
      else Err invalid_datetime_format
  | [h1; h2; c1; m1; m2; c2; s1; s2] =>
      if is_colon c1 && is_colon c2
      then hms (digits2 h1 h2) (digits2 m1 m2) (digits2 s1 s2)
      else Err invalid_datetime_format
  | _ => Err invalid_datetime_format
  end.

Definition is_leap (y : Z) : bool :=
  ((y mod 4 =? 0) && negb (y mod 100 =? 0)) || (y mod 400 =? 0).

Definition days_in_month (y m : Z) : Z :=
  if m =? 2 then (if is_leap y then 29 else 28)
  else if (m =? 4) || (m =? 6) || (m =? 9) || (m =? 11) then 30
  else 31.

(** Day number of a proleptic Gregorian date (1970-01-01 is day 0). *)
Definition days_from_civil (y m d : Z) : Z :=
  let y' := if m <=? 2 then y - 1 else y in
  let era := y' / 400 in
  let yoe := y' - era * 400 in
  let doy := (153 * (if 2 <? m then m - 3 else m + 9) + 2) / 5 + d - 1 in
  let doe := yoe * 365 + yoe / 4 - yoe / 100 + doy in
  era * 146097 + doe - 719468.

(** Text to DATE, for the spelling YYYY-MM-DD. *)
Definition date_in (s : string) : result Z :=
  match list_ascii_of_string s with
  | [y1; y2; y3; y4; c1; m1; m2; c2; d1; d2] =>
      if is_dash c1 && is_dash c2 then
        match digits2 y1 y2, digits2 y3 y4, digits2 m1 m2, digits2 d1 d2 with
        | Some yh, Some yl, Some m, Some d =>
            let y := 100 * yh + yl in
            if (1 <=? y) && (1 <=? m) && (m <=? 12) && (1 <=? d)
               && (d <=? days_in_month y m)
            then Ok (days_from_civil y m d)
            else Err datetime_field_overflow
        | _, _, _, _ => Err invalid_datetime_format
        end
      else Err invalid_datetime_format
  | _ => Err invalid_datetime_format
  end.

(** A parameter that may be NULL (node-postgres sends [undefined] as
    NULL): the cast applies to a present value only. *)
Definition nullable {A B} (cast : A -> result B) (v : option A)
  : result (option B) :=
  match v with
  | None => Ok None
  | Some a => bind (cast a) (fun b => Ok (Some b))
  end.

End Pg.

Import Pg.

Declare Scope pg_scope.
Delimit Scope pg_scope with pg.
Notation "x <- c1 ;; c2" := (Pg.bind c1 (fun x => c2))
  (at level 61, c1 at next level, right associativity) : pg_scope.
Local Open Scope pg_scope.

(* ================================================================== *)
(** ** Schema: tables, stored functions, triggers, constraints         *)
(* ================================================================== *)

(** CREATE TYPE appointment_status AS ENUM (...) *)
Inductive appointment_status : Type :=
| scheduled
| checked_in
| completed
| cancelled.

Definition status_eqb (a b : appointment_status) : bool :=
  match a, b with
  | scheduled, scheduled => true
  | checked_in, checked_in => true
  | completed, completed => true
  | cancelled, cancelled => true
  | _, _ => false
  end.

Definition status_label (s : appointment_status) : string :=
  match s with
  | scheduled => "scheduled"
  | checked_in => "checked_in"
  | completed => "completed"
  | cancelled => "cancelled"
  end.

(** Text to appointment_status. *)
Definition status_in (s : string) : result appointment_status :=
  if String.eqb s "scheduled" then Ok scheduled
  else if String.eqb s "checked_in" then Ok checked_in
  else if String.eqb s "completed" then Ok completed
  else if String.eqb s "cancelled" then Ok cancelled
  else Err invalid_text_representation.

(** A row of [appointments].  The columns created_at and updated_at carry
    no behaviour of their own and are left out. *)
Record appointment : Type := mkAppointment {
  id : Z;
  patient_id : Z;
  doctor_id : Z;
  appointment_date : Z;
  appointment_time : Z;
  duration_minutes : Z;
  status : appointment_status;
  notes : string
}.

Record patient : Type := mkPatient { p_id : Z; p_full_name : string }.
Record doctor : Type := mkDoctor { d_id : Z; d_full_name : string }.

Record database : Type := mkDatabase {
  patients : list patient;
  doctors : list doctor;
  appointments : list appointment;
  appointments_id_seq : Z
}.

Definition with_appointments (db : database) (rows : list appointment)
  : database :=
  mkDatabase (patients db) (doctors db) rows (appointments_id_seq db).

(** [appointment_time + (duration_minutes || ' minutes')::INTERVAL] *)
Definition end_time (a : appointment) : Z :=
  time_pl_minutes (appointment_time a) (duration_minutes a).

(** [p_exclude_id IS NULL OR id != p_exclude_id] *)
Definition not_excluded (p_exclude_id : option Z) (a : appointment) : bool :=
  match p_exclude_id with
  | None => true
  | Some x => negb (id a =? x)
  end.

Definition count_where (P : appointment -> bool) (rows : list appointment)
  : Z :=
  Z.of_nat (List.length (filter P rows)).

(** FUNCTION check_appointment_conflict *)
Definition check_appointment_conflict (rows : list appointment)
    (p_doctor_id p_appointment_date p_appointment_time p_duration_minutes : Z)
    (p_exclude_id : option Z) : bool :=
  let p_end_time := time_pl_minutes p_appointment_time p_duration_minutes in
  let conflict_count :=
    count_where (fun a =>
      (doctor_id a =? p_doctor_id)
      && (appointment_date a =? p_appointment_date)
      && negb (status_eqb (status a) cancelled)
      && not_excluded p_exclude_id a
      && (((appointment_time a <=? p_appointment_time)
           && (p_appointment_time <? end_time a))
          || ((appointment_time a <? p_end_time)
              && (p_end_time <=? end_time a)))) rows in
  0 <? conflict_count.

(** FUNCTION check_doctor_overlap: one row whose [overlap] column is 1 or 0. *)
Definition check_doctor_overlap (rows : list appointment)
    (p_doctor_id p_date p_start p_duration : Z)
    (p_exclude_appt_id : option Z) : Z :=
  if 0 <? count_where (fun a =>
       (doctor_id a =? p_doctor_id)
       && (appointment_date a =? p_date)
       && not_excluded p_exclude_appt_id a
       && ((p_start <? end_time a)
           && (appointment_time a <? time_pl_minutes p_start p_duration)))
       rows
  then 1 else 0.

(** Trigger operation (TG_OP). *)
Inductive tg_op : Type := INSERT | UPDATE.

(** The row of a BEFORE trigger: the date and time of a row being inserted
    may still be NULL, since NOT NULL is enforced after the triggers. *)
Record new_row : Type := mkNew {
  new_id : Z;
  new_patient_id : Z;
  new_doctor_id : Z;
  new_appointment_date : option Z;
  new_appointment_time : option Z;
  new_duration_minutes : Z;
  new_status : appointment_status;
  new_notes : string
}.

(** FUNCTION trg_appt_no_past_check; [now] is NOW() as a timestamp of the
    session's time zone, in seconds since 1970-01-01 00:00 and rounded up to
    a whole second (stored times are whole seconds).  A NULL date or time
    makes the comparison NULL, and the IF does not fire. *)
Definition trg_appt_no_past_check (now : Z) (NEW : new_row) : result unit :=
  match new_appointment_date NEW, new_appointment_time NEW with
  | Some d, Some t =>
      if d * SECS_PER_DAY + t <? now
      then Err (raise_exception "Cannot create appointment in the past")
      else Ok tt
  | _, _ => Ok tt
  end.

(** FUNCTION trg_appt_no_overlap_check *)
Definition trg_appt_no_overlap_check (op : tg_op) (rows : list appointment)
    (NEW : new_row) : result unit :=
  match new_appointment_date NEW, new_appointment_time NEW with
  | Some d, Some t =>
      let new_end_time := time_pl_minutes t (new_duration_minutes NEW) in
      let overlap_count :=
        count_where (fun a =>
          (doctor_id a =? new_doctor_id NEW)
          && (appointment_date a =? d)
          && (match op with
              | INSERT => true
              | UPDATE => negb (id a =? new_id NEW)
              end)
          && negb (status_eqb (status a) cancelled)
          && ((t <? end_time a) && (appointment_time a <? new_end_time)))
          rows in
      if 0 <? overlap_count
      then Err (raise_exception
                  "Overlapping appointment exists for this doctor")
      else Ok tt
  | _, _ => Ok tt
  end.

Definition nextval (db : database) : database :=
  mkDatabase (patients db) (doctors db) (appointments db)
             (appointments_id_seq db + 1).

Definition patient_exists (db : database) (i : Z) : bool :=
  existsb (fun p => p_id p =? i) (patients db).

Definition doctor_exists (db : database) (i : Z) : bool :=
  existsb (fun d => d_id d =? i) (doctors db).

(** CONSTRAINT uq_doctor_datetime UNIQUE (doctor_id, appointment_date,
    appointment_time), checked against the rows [others]. *)
Definition uq_doctor_datetime (others : list appointment) (a : appointment)
  : result unit :=
  if existsb (fun b =>
       (doctor_id b =? doctor_id a)
       && (appointment_date b =? appointment_date a)
       && (appointment_time b =? appointment_time a)) others
  then Err (unique_violation
    "Key (doctor_id, appointment_date, appointment_time) already exists.")
  else Ok tt.

(** PRIMARY KEY (id) *)
Definition appointments_pkey (others : list appointment) (a : appointment)
  : result unit :=
  if existsb (fun b => id b =? id a) others
  then Err (unique_violation "Key (id) already exists.")
  else Ok tt.

(** REFERENCES patients(id) and REFERENCES doctors(id) *)
Definition appointments_fkeys (db : database) (a : appointment)
  : result unit :=
  if patient_exists db (patient_id a) && doctor_exists db (doctor_id a)
  then Ok tt
  else Err foreign_key_violation.

(** NOT NULL on appointment_date and appointment_time, enforced after the
    BEFORE triggers have run. *)
Definition not_null_row (NEW : new_row) : result appointment :=
  match new_appointment_date NEW, new_appointment_time NEW with
  | Some d, Some t =>
      Ok (mkAppointment (new_id NEW) (new_patient_id NEW) (new_doctor_id NEW)
            d t (new_duration_minutes NEW) (new_status NEW) (new_notes NEW))
  | _, _ => Err not_null_violation
  end.

(** INSERT INTO appointments (...) VALUES ($1..$7) RETURNING id.
    The parameters are cast first (an id that is NaN, [None], is no
    integer); then the row takes its id from the
    sequence (consumed even when the statement fails later), the BEFORE
    INSERT triggers fire in name order (trg_appt_no_overlap_insert, then
    trg_appt_no_past_insert), and the constraints are checked. *)
Definition insert_appointment (now : Z) (db : database)
    (v_patient_id v_doctor_id : option Z) (v_date v_time : option string)
    (v_duration : Z) (v_status v_notes : string)
  : result Z * database :=
  let casts :=
    pid <- int4_of_number v_patient_id ;;
    did <- int4_of_number v_doctor_id ;;
    d <- nullable date_in v_date ;;
    t <- nullable time_in v_time ;;
    dur <- int2_in v_duration ;;
    st <- status_in v_status ;;
    Ok (mkNew (appointments_id_seq db) pid did d t dur st v_notes) in
  match casts with
  | Err e => (Err e, db)
  | Ok NEW =>
      let db1 := nextval db in
      let checks :=
        _ <- trg_appt_no_overlap_check INSERT (appointments db) NEW ;;
        _ <- trg_appt_no_past_check now NEW ;;
        row <- not_null_row NEW ;;
        _ <- appointments_pkey (appointments db) row ;;
        _ <- uq_doctor_datetime (appointments db) row ;;
        _ <- appointments_fkeys db row ;;
        Ok row in
      match checks with
      | Err e => (Err e, db1)
      | Ok row =>
          (Ok (id row), with_appointments db1 (appointments db ++ [row]))
      end
  end.

(** The SET list of an UPDATE: a column is assigned when a value is given. *)
Record assignments : Type := mkAssignments {
  set_patient_id : option Z;
  set_doctor_id : option Z;
  set_appointment_date : option Z;
  set_appointment_time : option Z;
  set_duration_minutes : option Z;
  set_status : option appointment_status;
  set_notes : option string
}.

Definition assign {A} (old : A) (v : option A) : A :=
  match v with
  | Some x => x
  | None => old
  end.

Definition apply_assignments (s : assignments) (old : appointment)
  : appointment :=
  mkAppointment (id old)
    (assign (patient_id old) (set_patient_id s))
    (assign (doctor_id old) (set_doctor_id s))
    (assign (appointment_date old) (set_appointment_date s))
    (assign (appointment_time old) (set_appointment_time s))
    (assign (duration_minutes old) (set_duration_minutes s))
    (assign (status old) (set_status s))
    (assign (notes old) (set_notes s)).

Definition as_new (a : appointment) : new_row :=
  mkNew (id a) (patient_id a) (doctor_id a) (Some (appointment_date a))
        (Some (appointment_time a)) (duration_minutes a) (status a) (notes a).

Definition other_rows (i : Z) (rows : list appointment) : list appointment :=
  filter (fun a => negb (id a =? i)) rows.

Definition replace_row (row : appointment) (rows : list appointment)
  : list appointment :=
  map (fun a => if id a =? id row then row else a) rows.

(** The BEFORE UPDATE triggers, in name order: trg_appointments_updated_at
    (which only stamps updated_at), trg_appt_no_overlap_update,
    trg_appt_no_past_update; then the constraints, checked against the other
    rows. *)
Definition update_checks (now : Z) (db : database) (row : appointment)
  : result unit :=
  _ <- trg_appt_no_overlap_check UPDATE (appointments db) (as_new row) ;;
  _ <- trg_appt_no_past_check now (as_new row) ;;
  _ <- uq_doctor_datetime (other_rows (id row) (appointments db)) row ;;
  appointments_fkeys db row.

(** UPDATE appointments SET ... WHERE id = i, on already cast values; the
    result is the statement's rowCount.  The primary key makes the updated
    row unique. *)
Definition update_appointment (now : Z) (db : database) (i : Z)
    (s : assignments) : result Z * database :=
  match find (fun a => id a =? i) (appointments db) with
  | None => (Ok 0, db)
  | Some old =>
      let row := apply_assignments s old in
      match update_checks now db row with
      | Err e => (Err e, db)
      | Ok _ =>
          (Ok 1, with_appointments db (replace_row row (appointments db)))
      end
  end.

(* ================================================================== *)
(** ** JavaScript values and the coercions the routes rely on          *)
(* ================================================================== *)

Module Js.

(** Values of request fields and of the objects the helpers return.
    Numbers are the integers; strings are byte strings. *)
#[local] Unset Elimination Schemes.
Inductive jsval : Type :=
| JUndefined
| JBoolean (b : bool)
| JNumber (n : Z)
| JString (s : string)
| JArray (xs : list jsval)
| JObject (props : list (string * jsval)).
#[local] Set Elimination Schemes.

Definition string_of_Z (n : Z) : string :=
  NilZero.string_of_int (Z.to_int n).

Definition is_space (c : ascii) : bool :=
  let n := nat_of_ascii c in
  ((9 <=? n) && (n <=? 13))%nat || (n =? 32)%nat.

Fixpoint trim_start (l : list ascii) : list ascii :=
  match l with
  | c :: r => if is_space c then trim_start r else l
  | [] => []
  end.

(** String.prototype.trim *)
Definition trim (s : string) : string :=
  string_of_list_ascii
    (rev (trim_start (rev (trim_start (list_ascii_of_string s))))).

Fixpoint join (sep : string) (l : list string) : string :=
  match l with
  | [] => EmptyString
  | [s] => s
  | s :: r => (s ++ sep ++ join sep r)%string
  end.

(** value.toString() (String(value) for undefined) *)
Fixpoint toString (v : jsval) : string :=
  match v with
  | JUndefined => "undefined"
  | JBoolean b => if b then "true" else "false"
  | JNumber n => string_of_Z n
  | JString s => s
  | JArray xs =>
      join "," (map (fun x => match x with
                              | JUndefined => EmptyString
                              | _ => toString x
                              end) xs)
  | JObject _ => "[object Object]"
  end.

Fixpoint digits_value (acc : Z) (l : list ascii) : option Z :=
  match l with
  | [] => Some acc
  | c :: r =>
      match digit_of c with
      | Some d => digits_value (10 * acc + d) r
      | None => None
      end
  end.

(** The number a string spells: empty text is 0, an optionally signed run
    of decimal digits is its value, and any other text is NaN ([None]).
    Spellings of numbers that are not decimal integers are not covered. *)
Definition string_to_number (s : string) : option Z :=
  match list_ascii_of_string (trim s) with
  | [] => Some 0
  | c :: r =>
      if Ascii.eqb c "-"%char then
        match r with
        | [] => None
        | _ => option_map Z.opp (digits_value 0 r)
        end
      else if Ascii.eqb c "+"%char then
        match r with
        | [] => None
        | _ => digits_value 0 r
        end
      else digits_value 0 (c :: r)
  end.

(** Number(value); [None] is NaN. *)
Definition Number (v : jsval) : option Z :=
  match v with
  | JUndefined => None
  | JBoolean b => Some (if b then 1 else 0)
  | JNumber n => Some n
  | JString s => string_to_number s
  | JArray _ => string_to_number (toString v)
  | JObject _ => None
  end.

(** !value *)
Definition falsy (v : jsval) : bool :=
  match v with
  | JUndefined => true
  | JBoolean b => negb b
  | JNumber n => n =? 0
  | JString s => String.eqb s EmptyString
  | JArray _ => false
  | JObject _ => false
  end.

Fixpoint lookup (name : string) (props : list (string * jsval))
  : option jsval :=
  match props with
  | [] => None
  | (k, v) :: r => if String.eqb k name then Some v else lookup name r
  end.

(** obj[name] and obj.name: an own property, the length of an array or of
    a string, and undefined for anything else. *)
Definition get (obj : jsval) (name : string) : jsval :=
  match obj with
  | JObject props =>
      match lookup name props with
      | Some v => v
      | None => JUndefined
      end
  | JArray xs =>
      if String.eqb name "length" then JNumber (Z.of_nat (List.length xs))
      else JUndefined
  | JString s =>
      if String.eqb name "length" then JNumber (Z.of_nat (String.length s))
      else JUndefined
  | _ => JUndefined
  end.

(** [v > n] for a numeric literal [n]: false when [v] is NaN as a number. *)
Definition gt_number (v : jsval) (n : Z) : bool :=
  match Number v with
  | Some x => n <? x
  | None => false
  end.

(** s.includes(sub) *)
Fixpoint includes (sub s : string) : bool :=
  String.prefix sub s
  || match s with
     | EmptyString => false
     | String _ r => includes sub r
     end.

(** obj[name] = v *)
Fixpoint set (name : string) (v : jsval) (props : list (string * jsval))
  : list (string * jsval) :=
  match props with
  | [] => [(name, v)]
  | (k, w) :: r =>
      if String.eqb k name then (k, v) :: r else (k, w) :: set name v r
  end.

Definition of_number (v : option Z) : jsval :=
  match v with
  | Some n => JNumber n
  | None => JUndefined
  end.

Definition of_string (v : option string) : jsval :=
  match v with
  | Some s => JString s
  | None => JUndefined
  end.

End Js.

Import Js.

(* ================================================================== *)
(** ** routes/index.js: handleDatabaseError and validateInput          *)
(* ================================================================== *)

(** The clock and the engine functions a request runs against. *)
Record runtime : Type := mkRuntime {
  (** NOW() of the database session (see [trg_appt_no_past_check]). *)
  NOW : Z;
  (** [today] after [setHours(0, 0, 0, 0)]: local midnight, in milliseconds
      since the epoch. *)
  today : Z;
  (** The time value of [new Date(text)], [None] for an invalid date. *)
  Date_parse : string -> option Z
}.

(** An element of the [slots] array. *)
Record slot : Type := mkSlot { time : string; available : bool }.

(** The object passed to Appointment.create; duration_minutes, status and
    notes have the defaults 30, 'scheduled' and ''.  An id is [None] when
    parseInt gave NaN. *)
Record create_data : Type := mkCreate {
  c_patient_id : option Z;
  c_doctor_id : option Z;
  c_appointment_date : option string;
  c_appointment_time : option string;
  c_duration_minutes : option Z;
  c_status : option string;
  c_notes : option string
}.

(** The JSON document of a response, besides [message] and [error]. *)
Inductive payload : Type :=
| NoData
| ValidationErrors (errors : jsval)
| Conflicts (rows : list appointment)
| Field (name : string)
| Booked (appointment_id : Z) (appointmentData : create_data)
         (patient_name doctor_name : string)
| StatusUpdated (appointment_id : Z) (new_status : string)
| Slots (doctor_id : Z) (doctor_name date : string) (slots : list slot).

(** [res.status(code).json({message, error, ...})] *)
Record response : Type := mkResponse {
  http_status : Z;
  error : option string;
  message : string;
  data : payload
}.

(** function handleDatabaseError(err, res, operation) *)
Definition handleDatabaseError (err : pg_error) (operation : string)
  : response :=
  let pgCode := code err in
  if String.eqb pgCode "23505" then
    let field := if includes "phone" (detail err)
                 then "phone number"%string else "name"%string in
    mkResponse 409 (Some "DUPLICATE_ENTRY"%string)
      ("A record with this " ++ field ++ " already exists")%string
      (Field field)
  else if String.eqb pgCode "23503" then
    mkResponse 409 (Some "FOREIGN_KEY_CONSTRAINT"%string)
      "Cannot delete this record as it is being used by other records" NoData
  else if String.eqb pgCode "22001" then
    mkResponse 400 (Some "DATA_TOO_LONG"%string)
      "Data too long for one or more fields" NoData
  else if String.eqb pgCode "23502" then
    mkResponse 400 (Some "REQUIRED_FIELD_MISSING"%string)
      "Required field cannot be empty" NoData
  else if String.eqb pgCode "28000" || String.eqb pgCode "28P01" then
    mkResponse 503 (Some "DATABASE_ACCESS_DENIED"%string)
      "Database access denied" NoData
  else if String.eqb pgCode "3D000" then
    mkResponse 503 (Some "DATABASE_UNAVAILABLE"%string)
      "Database not available" NoData
  else if String.eqb pgCode "ECONNREFUSED" then
    mkResponse 503 (Some "DATABASE_CONNECTION_FAILED"%string)
      "Database connection failed" NoData
  else if String.eqb pgCode "ETIMEDOUT" then
    mkResponse 503 (Some "DATABASE_TIMEOUT"%string)
      "Database operation timed out" NoData
  else
    mkResponse 500 (Some "DATABASE_ERROR"%string)
      ("Database error during " ++ operation)%string NoData.

(** A validation rule object.  A regular expression is represented by its
    [test] function. *)
Record rule : Type := mkRule {
  required : bool;
  sanitize : option string;
  label : option string;
  minLength : option Z;
  maxLength : option Z;
  pattern : option (string -> bool);
  custom : option (jsval -> bool);
  customMessage : option string;
  type : option string
}.

(** [text || fallback] for an optional string property *)
Definition or_else (text : option string) (fallback : string) : string :=
  match text with
  | Some s => if String.eqb s EmptyString then fallback else s
  | None => fallback
  end.

(** A numeric property used as a condition: absent and 0 are falsy. *)
Definition truthy_bound (b : option Z) : option Z :=
  match b with
  | Some n => if n =? 0 then None else Some n
  | None => None
  end.

(** value.replace(/<[^>]*>/g, ''): [pending] holds the text since an
    opening bracket that has not been closed yet. *)
Fixpoint strip_tags (pending : option (list ascii)) (l : list ascii)
  : list ascii :=
  match l, pending with
  | [], None => []
  | [], Some p => rev p
  | c :: r, None =>
      if Ascii.eqb c "<"%char then strip_tags (Some [c]) r
      else c :: strip_tags None r
  | c :: r, Some p =>
      if Ascii.eqb c ">"%char then strip_tags None r
      else strip_tags (Some (c :: p)) r
  end.

(** The character class of the sql sanitizer: NUL, backspace, tab, SUB,
    line feed, carriage return, both quotes, backslash and percent. *)
Definition sql_special (c : ascii) : bool :=
  existsb (Nat.eqb (nat_of_ascii c)) [0; 8; 9; 26; 10; 13; 34; 39; 92; 37]%nat.

Definition apply_sanitize (r : rule) (value : jsval) : jsval :=
  match sanitize r, value with
  | Some kind, JString s =>
      if String.eqb kind EmptyString then value
      else
        let s1 := trim s in
        let s2 := if String.eqb kind "html"
                  then string_of_list_ascii
                         (strip_tags None (list_ascii_of_string s1))
                  else s1 in
        let s3 := if String.eqb kind "sql"
                  then string_of_list_ascii
                         (filter (fun c => negb (sql_special c))
                                 (list_ascii_of_string s2))
                  else s2 in
        JString s3
  | _, _ => value
  end.

Definition is_digit (c : ascii) : bool :=
  match digit_of c with
  | Some _ => true
  | None => false
  end.

Definition digit_between (lo hi : Z) (c : ascii) : bool :=
  match digit_of c with
  | Some d => (lo <=? d) && (d <=? hi)
  | None => false
  end.

(** /^\d{4}-\d{2}-\d{2}$/.test *)
Definition date_pattern (s : string) : bool :=
  match list_ascii_of_string s with
  | [y1; y2; y3; y4; c1; m1; m2; c2; d1; d2] =>
      is_digit y1 && is_digit y2 && is_digit y3 && is_digit y4
      && is_dash c1 && is_digit m1 && is_digit m2
      && is_dash c2 && is_digit d1 && is_digit d2
  | _ => false
  end.

(** ([0-1]?[0-9]|2[0-3]) *)
Definition hour_pattern (l : list ascii) : bool :=
  match l with
  | [h] => is_digit h
  | [h1; h2] =>
      (digit_between 0 1 h1 && is_digit h2)
      || (digit_between 2 2 h1 && digit_between 0 3 h2)
  | _ => false
  end.

(** :[0-5][0-9] *)
Definition colon_sixty (c a b : ascii) : bool :=
  is_colon c && digit_between 0 5 a && is_digit b.

(** /^([0-1]?[0-9]|2[0-3]):[0-5][0-9](:[0-5][0-9])?$/.test *)
Definition time_pattern (s : string) : bool :=
  match list_ascii_of_string s with
  | [h1; c1; m1; m2] => hour_pattern [h1] && colon_sixty c1 m1 m2
  | [h1; h2; c1; m1; m2] => hour_pattern [h1; h2] && colon_sixty c1 m1 m2
  | [h1; c1; m1; m2; c2; s1; s2] =>
      hour_pattern [h1] && colon_sixty c1 m1 m2 && colon_sixty c2 s1 s2
  | [h1; h2; c1; m1; m2; c2; s1; s2] =>
      hour_pattern [h1; h2] && colon_sixty c1 m1 m2 && colon_sixty c2 s1 s2
  | _ => false
  end.

(** [^\s@] *)
Definition email_char (c : ascii) : bool :=
  negb (is_space c) && negb (Ascii.eqb c "@"%char).

(** Some dot of [l] has a non-empty text on both sides. *)
Fixpoint inner_dot (seen : bool) (l : list ascii) : bool :=
  match l with
  | [] => false
  | c :: r =>
      (seen && Ascii.eqb c "."%char
       && match r with [] => false | _ => true end)
      || inner_dot true r
  end.

Fixpoint split_at_sign (l : list ascii) : option (list ascii * list ascii) :=
  match l with
  | [] => None
  | c :: r =>
      if Ascii.eqb c "@"%char then Some ([], r)
      else match split_at_sign r with
           | Some (a, b) => Some (c :: a, b)
           | None => None
           end
  end.

(** /^[^\s@]+@[^\s@]+\.[^\s@]+$/.test *)
Definition email_pattern (s : string) : bool :=
  match split_at_sign (list_ascii_of_string s) with
  | Some (local_part, domain) =>
      match local_part with [] => false | _ => true end
      && forallb email_char local_part
      && forallb email_char domain
      && inner_dot false domain
  | None => false
  end.

(** The object validateInput returns. *)
Record validation : Type := mkValidation {
  isValid : bool;
  errors : list string;
  sanitizedData : list (string * jsval)
}.

(** The same object as a JavaScript value, for property access. *)
Definition validation_object (v : validation) : jsval :=
  JObject [("isValid"%string, JBoolean (isValid v));
           ("errors"%string, JArray (map JString (errors v)));
           ("sanitizedData"%string, JObject (sanitizedData v))].

Definition when (b : bool) (msg : string) : list string :=
  if b then [msg] else [].

Definition type_errors (name : string) (r : rule) (value : jsval)
    (stringValue : string) : list string :=
  match type r with
  | Some t =>
      if String.eqb t "integer" then
        when (match Number value with
              | Some n => n <=? 0
              | None => true
              end)
             (name ++ " must be a positive integer")%string
      else if String.eqb t "email" then
        when (negb (email_pattern stringValue))
             (name ++ " must be a valid email address")%string
      else if String.eqb t "date" then
        when (negb (date_pattern stringValue))
             (name ++ " must be in YYYY-MM-DD format")%string
      else if String.eqb t "time" then
        when (negb (time_pattern stringValue))
             (name ++ " must be in HH:MM format")%string
      else []
  | None => []
  end.

(** The body of the loop of validateInput for one field, after
    sanitization: the messages it pushes onto [errors]. *)
Definition field_errors (field : string) (r : rule) (value : jsval)
  : list string :=
  let name := or_else (label r) field in
  if required r
     && (falsy value || String.eqb (trim (toString value)) EmptyString)
  then [(name ++ " is required")%string]
  else if falsy value
          && negb (match value with JNumber 0 => true | _ => false end)
  then []
  else
    let stringValue := trim (toString value) in
    let len := Z.of_nat (String.length stringValue) in
    (match truthy_bound (minLength r) with
     | Some n => when (len <? n)
                   (name ++ " must be at least " ++ string_of_Z n
                    ++ " characters")%string
     | None => []
     end)
    ++ (match truthy_bound (maxLength r) with
        | Some n => when (n <? len)
                      (name ++ " cannot exceed " ++ string_of_Z n
                       ++ " characters")%string
        | None => []
        end)
    ++ (match pattern r with
        | Some test => when (negb (test stringValue))
                         (or_else (customMessage r)
                                  (name ++ " format is invalid")%string)
        | None => []
        end)
    ++ (match custom r with
        | Some f => when (negb (f value))
                      (or_else (customMessage r)
                               (name ++ " is invalid")%string)
        | None => []
        end)
    ++ type_errors name r value stringValue.

(** function validateInput(data, rules) *)
Definition validateInput (data : jsval) (rules : list (string * rule))
  : validation :=
  let step (acc : list string * list (string * jsval))
           (entry : string * rule) :=
    let '(field, r) := entry in
    let value := apply_sanitize r (get data field) in
    (fst acc ++ field_errors field r value, set field value (snd acc)) in
  let '(errs, sanitized) := fold_left step rules ([], []) in
  mkValidation (match errs with [] => true | _ => false end) errs sanitized.

(* ================================================================== *)
(** ** server.js: the model classes Patient, Doctor, Appointment        *)
(* ================================================================== *)

(** Patient.findById: SELECT * FROM patients WHERE id = $1 *)
Definition Patient_findById (db : database) (i : option Z)
  : result (option patient) :=
  p <- nullable int4_in i ;;
  Ok (match p with
      | Some n => find (fun x => p_id x =? n) (patients db)
      | None => None
      end).

(** Doctor.findById *)
Definition Doctor_findById (db : database) (i : option Z)
  : result (option doctor) :=
  p <- nullable int4_in i ;;
  Ok (match p with
      | Some n => find (fun x => d_id x =? n) (doctors db)
      | None => None
      end).





(** Appointment.findById *)
Definition Appointment_findById (db : database) (i : Z)
  : result (option appointment) :=
  n <- int4_in i ;;
  Ok (find (fun a => id a =? n) (appointments db)).

(** The query of Appointment.checkOverlap on cast parameters; [exclude_id]
    is the optional fifth parameter ([AND id != $5] when it is given). *)
Definition checkOverlap (rows : list appointment)
    (v_doctor_id v_appointment_date v_appointment_time v_duration_minutes : Z)
    (exclude_id : option Z) : bool :=
  let v_end := time_pl_minutes v_appointment_time v_duration_minutes in
  0 <? count_where (fun a =>
         (doctor_id a =? v_doctor_id)
         && (appointment_date a =? v_appointment_date)
         && negb (status_eqb (status a) cancelled)
         && (((appointment_time a <=? v_appointment_time)
              && (v_appointment_time <? end_time a))
             || ((appointment_time a <? v_end)
                 && (v_end <=? end_time a)))
         && not_excluded exclude_id a) rows.

(** Appointment.checkOverlap(doctor_id, appointment_date, appointment_time,
    duration_minutes, exclude_id): the parameters are cast (the minutes of
    the interval are read as an INTEGER), and a NULL doctor, date or time
    matches no row.  The only caller that passes [exclude_id] passes the id
    segment of the path, a non-empty string, so that [if (exclude_id)]
    holds whenever it is given. *)
Definition Appointment_checkOverlap (db : database)
    (v_doctor_id : option Z) (v_date v_time : option string)
    (v_duration : Z) (exclude_id : option Z) : result bool :=
  did <- nullable int4_in v_doctor_id ;;
  d <- nullable date_in v_date ;;
  t <- nullable time_in v_time ;;
  dur <- int4_in v_duration ;;
  ex <- nullable int4_in exclude_id ;;
  Ok (match did, d, t with
      | Some did, Some d, Some t =>
          checkOverlap (appointments db) did d t dur ex
      | _, _, _ => false
      end).

(** SELECT check_appointment_conflict($1, $2, $3, $4, NULL) *)
Definition select_check_appointment_conflict (db : database)
    (v_doctor_id : option Z) (v_date v_time : option string)
    (v_duration : Z) : result bool :=
  did <- nullable int4_in v_doctor_id ;;
  d <- nullable date_in v_date ;;
  t <- nullable time_in v_time ;;
  dur <- int4_in v_duration ;;
  Ok (match did, d, t with
      | Some did, Some d, Some t =>
          check_appointment_conflict (appointments db) did d t dur None
      | _, _, _ => false
      end).

(** Appointment.create *)
Definition Appointment_create (rt : runtime) (db : database)
    (d : create_data) : result Z * database :=
  let duration_minutes := assign 30 (c_duration_minutes d) in
  let status := assign "scheduled"%string (c_status d) in
  let notes := assign EmptyString (c_notes d) in
  insert_appointment (NOW rt) db (c_patient_id d) (c_doctor_id d)
    (c_appointment_date d) (c_appointment_time d)
    duration_minutes status notes.

(** The updateData object of Appointment.updateById. *)
Record update_data : Type := mkUpdate {
  u_patient_id : option Z;
  u_doctor_id : option Z;
  u_appointment_date : option string;
  u_appointment_time : option string;
  u_duration_minutes : option Z;
  u_status : option string;
  u_notes : option string
}.

Definition no_fields (u : update_data) : bool :=
  match u with
  | mkUpdate None None None None None None None => true
  | _ => false
  end.

(** Appointment.updateById(id, updateData): no statement is issued when no
    field is given; otherwise the given fields are cast and assigned. *)
Definition Appointment_updateById (rt : runtime) (db : database) (i : Z)
    (u : update_data) : result bool * database :=
  if no_fields u then (Ok false, db)
  else
    let casts :=
      pid <- nullable int4_in (u_patient_id u) ;;
      did <- nullable int4_in (u_doctor_id u) ;;
      d <- nullable date_in (u_appointment_date u) ;;
      t <- nullable time_in (u_appointment_time u) ;;
      dur <- nullable int2_in (u_duration_minutes u) ;;
      st <- nullable status_in (u_status u) ;;
      n <- int4_in i ;;
      Ok (n, mkAssignments pid did d t dur st (u_notes u)) in
    match casts with
    | Err e => (Err e, db)
    | Ok (n, s) =>
        match update_appointment (NOW rt) db n s with
        | (Ok rowCount, db') => (Ok (0 <? rowCount), db')
        | (Err e, db') => (Err e, db')
        end
    end.

(* ================================================================== *)
(** ** routes/index.js: the appointment routes                         *)
(* ================================================================== *)

Definition server_error : response :=
  mkResponse 500 None "Server error" NoData.









(** The body of POST /appointments; an absent property is [None]. *)
Record booking_request : Type := mkBooking {
  req_patient_id : option Z;
  req_doctor_id : option Z;
  req_appointment_date : option string;
  req_appointment_time : option string;
  req_duration_minutes : option Z;
  req_notes : option string
}.

(** new Date(value) as a time value *)
Definition new_Date (rt : runtime) (value : jsval) : option Z :=
  match value with
  | JUndefined => None
  | JBoolean b => Some (if b then 1 else 0)
  | JNumber n => Some n
  | JString s => Date_parse rt s
  | JArray _ => Date_parse rt (toString value)
  | JObject _ => Date_parse rt (toString value)
  end.

(** Number.isInteger(Number(value)) && Number(value) > 0 *)
Definition positive_integer (value : jsval) : bool :=
  match Number value with
  | Some n => 0 <? n
  | None => false
  end.

Definition plain_rule : rule :=
  mkRule false None None None None None None None None.

(** The rules object of POST /appointments. *)
Definition booking_rules (rt : runtime) : list (string * rule) :=
  [ ("patient_id"%string,
     mkRule true None None None None None (Some positive_integer)
            (Some "Patient ID must be a positive integer"%string) None);
    ("doctor_id"%string,
     mkRule true None None None None None (Some positive_integer)
            (Some "Doctor ID must be a positive integer"%string) None);
    ("appointment_date"%string,
     mkRule true None None None None (Some date_pattern)
            (Some (fun value =>
                     match new_Date rt value with
                     | Some date => today rt <=? date
                     | None => false
                     end))
            (Some "Appointment date must be today or in the future"%string)
            None);
    ("appointment_time"%string,
     mkRule true None None None None (Some time_pattern) None
            (Some "Time must be in HH:MM format"%string) None);
    ("duration_minutes"%string,
     mkRule false None None None None None
            (Some (fun value =>
                     match Number value with
                     | Some num => (15 <=? num) && (num <=? 240)
                     | None => false
                     end))
            (Some "Duration must be between 15 and 240 minutes"%string)
            None);
    ("notes"%string,
     mkRule false None None None (Some 500) None None
            (Some "Notes cannot exceed 500 characters"%string) None) ].

(** The rows of the detail query of a 409 answer. *)
Definition conflicting_rows (db : database)
    (did d t dur : Z) : list appointment :=
  filter (fun a =>
    patient_exists db (patient_id a)
    && (doctor_id a =? did)
    && (appointment_date a =? d)
    && negb (status_eqb (status a) cancelled)
    && (appointment_time a <? time_pl_minutes t dur)
    && (t <? end_time a)) (appointments db).

Definition select_conflicts (db : database)
    (v_doctor_id : option Z) (v_date v_time : option string)
    (v_duration : Z) : result (list appointment) :=
  did <- nullable int4_in v_doctor_id ;;
  d <- nullable date_in v_date ;;
  t <- nullable time_in v_time ;;
  dur <- int4_in v_duration ;;
  Ok (match did, d, t with
      | Some did, Some d, Some t => conflicting_rows db did d t dur
      | _, _, _ => []
      end).

(** parseInt(value) for a numeric field; NaN ([None]) when it is absent. *)
Definition parseInt (v : option Z) : option Z := v.

(** The try block around the conflict check of POST /appointments, with its
    catch: [Some r] when a response was sent, [None] to carry on. *)
Definition booking_conflict_check (db : database) (v_doctor_id : option Z)
    (v_date v_time : option string) (v_duration : Z)
  : result (option response) :=
  let attempt :=
    has_conflict <- select_check_appointment_conflict db v_doctor_id v_date
                      v_time v_duration ;;
    if (has_conflict : bool) then
      conflicts <- select_conflicts db v_doctor_id v_date v_time v_duration ;;
      Ok (Some (mkResponse 409 (Some "TIME_CONFLICT"%string)
                  "This time slot conflicts with existing appointments"
                  (Conflicts conflicts)))
    else Ok None in
  match attempt with
  | Ok r => Ok r
  | Err funcErr =>
      hasOverlap <- Appointment_checkOverlap db v_doctor_id v_date v_time
                      v_duration None ;;
      Ok (if (hasOverlap : bool)
          then Some (mkResponse 409 (Some "TIME_CONFLICT"%string)
                       "This time slot conflicts with an existing appointment"
                       NoData)
          else None)
  end.

(** The call of validateInput in POST /appointments. *)
Definition validate_booking (rt : runtime) (patient_id doctor_id : option Z)
    (appointment_date appointment_time : option string)
    (duration_minutes : Z) (notes : string) : validation :=
  validateInput
    (JObject [("patient_id"%string, of_number patient_id);
              ("doctor_id"%string, of_number doctor_id);
              ("appointment_date"%string, of_string appointment_date);
              ("appointment_time"%string, of_string appointment_time);
              ("duration_minutes"%string, JNumber duration_minutes);
              ("notes"%string, JString notes)])
    (booking_rules rt).

(** router.post('/appointments') *)
Definition post_appointments (rt : runtime) (db : database)
    (body : booking_request) : response * database :=
  let patient_id := req_patient_id body in
  let doctor_id := req_doctor_id body in
  let appointment_date := req_appointment_date body in
  let appointment_time := req_appointment_time body in
  let duration_minutes := assign 30 (req_duration_minutes body) in
  let notes := assign EmptyString (req_notes body) in
  let validationErrors :=
    validation_object
      (validate_booking rt patient_id doctor_id appointment_date
         appointment_time duration_minutes notes) in
  let failed (e : pg_error) := handleDatabaseError e "creating appointment" in
  if gt_number (get validationErrors "length") 0 then
    (mkResponse 400 (Some "VALIDATION_ERROR"%string) "Validation failed"
       (ValidationErrors validationErrors), db)
  else
    match Patient_findById db patient_id with
    | Err e => (failed e, db)
    | Ok None =>
        (mkResponse 404 (Some "PATIENT_NOT_FOUND"%string) "Patient not found"
           (Field "patient_id"), db)
    | Ok (Some patient) =>
        match Doctor_findById db doctor_id with
        | Err e => (failed e, db)
        | Ok None =>
            (mkResponse 404 (Some "DOCTOR_NOT_FOUND"%string)
               "Doctor not found" (Field "doctor_id"), db)
        | Ok (Some doctor) =>
            match booking_conflict_check db doctor_id appointment_date
                    appointment_time duration_minutes with
            | Err e => (failed e, db)
            | Ok (Some conflict) => (conflict, db)
            | Ok None =>
                let appointmentData :=
                  mkCreate (parseInt patient_id) (parseInt doctor_id)
                    appointment_date appointment_time
                    (parseInt (Some duration_minutes))
                    (Some "scheduled"%string) (Some (trim notes)) in
                match Appointment_create rt db appointmentData with
                | (Err e, db') => (failed e, db')
                | (Ok appointmentId, db') =>
                    (mkResponse 201 None "Appointment booked successfully"
                       (Booked appointmentId appointmentData
                          (p_full_name patient) (d_full_name doctor)), db')
                end
            end
        end
    end.

(** A field of a request used as a condition. *)
Definition truthy_number (v : option Z) : bool :=
  match v with
  | Some n => negb (n =? 0)
  | None => false
  end.

Definition truthy_string (v : option string) : bool :=
  match v with
  | Some s => negb (String.eqb s EmptyString)
  | None => false
  end.

(** router.put('/appointments/:id'); [i] is the id of the path. *)
Definition put_appointments (rt : runtime) (db : database) (i : Z)
    (body : update_data) : response * database :=
  let hasOverlap : result bool :=
    if truthy_number (u_doctor_id body)
       && truthy_string (u_appointment_date body)
       && truthy_string (u_appointment_time body)
       && truthy_number (u_duration_minutes body)
    then Appointment_checkOverlap db (u_doctor_id body)
           (u_appointment_date body) (u_appointment_time body)
           (assign 0 (u_duration_minutes body)) (Some i)
    else Ok false in
  match hasOverlap with
  | Err _ => (server_error, db)
  | Ok true =>
      (mkResponse 400 None
         "This time slot conflicts with an existing appointment for this doctor"
         NoData, db)
  | Ok false =>
      match Appointment_updateById rt db i body with
      | (Err _, db') => (server_error, db')
      | (Ok false, db') =>
          (mkResponse 404 None "Appointment not found" NoData, db')
      | (Ok true, db') =>
          (mkResponse 200 None "Appointment updated successfully" NoData, db')
      end
  end.

Definition validStatuses : list string :=
  ["scheduled"; "checked_in"; "completed"; "cancelled"]%string.

(** The status column of a row (the route binds [status] to the request's
    value). *)
Definition row_status (a : appointment) : appointment_status := status a.

Definition status_only (s : string) : update_data :=
  mkUpdate None None None None None (Some s) None.

(** router.patch('/appointments/:id/status'); [appointmentId] is the id
    segment of the path read as an integer, so that the first test of the
    route comes down to its sign. *)
Definition patch_appointment_status (rt : runtime) (db : database)
    (appointmentId : Z) (status : option string) : response * database :=
  let failed (e : pg_error) :=
    handleDatabaseError e "updating appointment status" in
  let not_found :=
    mkResponse 404 (Some "APPOINTMENT_NOT_FOUND"%string)
      "Appointment not found" (Field "id") in
  if appointmentId <=? 0 then
    (mkResponse 400 (Some "INVALID_ID"%string) "Invalid appointment ID"
       (Field "id"), db)
  else
    match status with
    | None =>
        (mkResponse 400 (Some "INVALID_STATUS"%string) "Invalid status value"
           (Field "status"), db)
    | Some status =>
        if negb (existsb (String.eqb status) validStatuses) then
          (mkResponse 400 (Some "INVALID_STATUS"%string)
             "Invalid status value" (Field "status"), db)
        else
          match Appointment_findById db appointmentId with
          | Err e => (failed e, db)
          | Ok None => (not_found, db)
          | Ok (Some existingAppointment) =>
              if String.eqb (status_label (row_status existingAppointment))
                            "completed"
                 && String.eqb status "cancelled"
              then
                (mkResponse 400 (Some "INVALID_STATUS_TRANSITION"%string)
                   "Cannot cancel a completed appointment" (Field "status"),
                 db)
              else
                match Appointment_updateById rt db appointmentId
                        (status_only status) with
                | (Err e, db') => (failed e, db')
                | (Ok false, db') => (not_found, db')
                | (Ok true, db') =>
                    (mkResponse 200 None
                       ("Appointment status updated to " ++ status
                        ++ " successfully")%string
                       (StatusUpdated appointmentId status), db')
                end
          end
    end.

(* ================================================================== *)
(** ** The specification's interval model and conflict detector        *)
(* ================================================================== *)

(** Specification, Interval Model: [end(interval) = start + duration], with
    the start in seconds after midnight and the duration in minutes. *)
Definition spec_end (start duration : Z) : Z := start + 60 * duration.

(** Specification, Interval Model: [overlaps(a, b)] is true iff
    [a.start < b.end AND b.start < a.end]. *)
Definition spec_overlaps (a_start a_duration b_start b_duration : Z) : bool :=
  (a_start <? spec_end b_start b_duration)
  && (b_start <? spec_end a_start a_duration).

(** Specification, Conflict Detector: [hasConflict(schedule, candidate,
    excludeId)] is true iff some appointment of the schedule, other than the
    one whose id is [excludeId], overlaps the candidate. *)
Definition spec_hasConflict (schedule : list appointment)
    (start duration : Z) (excludeId : option Z) : bool :=
  existsb (fun a =>
    not_excluded excludeId a
    && spec_overlaps (appointment_time a) (duration_minutes a)
                     start duration) schedule.

(** Specification, Status Machine: the allowed edges. *)
Definition spec_transition_allowed (current requested : appointment_status)
  : bool :=
  match current, requested with
  | scheduled, checked_in => true
  | scheduled, cancelled => true
  | checked_in, completed => true
  | checked_in, cancelled => true
  | _, _ => false
  end.

(** Specification, Appointment invariant: for a given doctor and date, no
    two appointments with a status other than cancelled have overlapping
    [start, start + duration) intervals. *)
Definition no_overlap (rows : list appointment) : Prop :=
  forall a b,
    In a rows -> In b rows -> id a <> id b ->
    doctor_id a = doctor_id b ->
    appointment_date a = appointment_date b ->
    status a <> cancelled -> status b <> cancelled ->
    spec_overlaps (appointment_time a) (duration_minutes a)
                  (appointment_time b) (duration_minutes b) = false.

(** An appointment that ends before midnight of its day. *)
Definition ends_same_day (a : appointment) : Prop :=
  0 <= appointment_time a + 60 * duration_minutes a < SECS_PER_DAY.

(* ================================================================== *)
(** ** Sample data                                                     *)
(* ================================================================== *)

(** An engine that reads the date-only spelling YYYY-MM-DD as UTC
    midnight. *)
Definition iso_Date_parse (s : string) : option Z :=
  match date_in s with
  | Ok d => Some (d * 86400000)
  | Err _ => None
  end.

(** A server whose clock shows 2030-01-01 00:00 (day 21915). *)
Definition sample_runtime : runtime :=
  mkRuntime (21915 * 86400) (21915 * 86400000) iso_Date_parse.

(** A database with one patient, one doctor and the given appointments. *)
Definition sample_db (rows : list appointment) (seq : Z) : database :=
  mkDatabase [mkPatient 1 "John Doe"] [mkDoctor 1 "Dr. Alice Heart"] rows seq.

(** A row of doctor 1 on 2030-01-02 (day 21916). *)
Definition sample_row (i t dur : Z) (st : appointment_status) : appointment :=
  mkAppointment i 1 1 21916 t dur st EmptyString.

(** A booking of doctor 1 for patient 1 on 2030-01-02. *)
Definition sample_booking (t : string) (dur : option Z) : booking_request :=
  mkBooking (Some 1) (Some 1) (Some "2030-01-02"%string) (Some t) dur None.

(* ================================================================== *)
(** ** Auxiliary definitions of the proofs                             *)
(* ================================================================== *)

(** The WHERE clause of Appointment.checkOverlap. *)
Definition checkOverlap_where (did d t dur : Z) (ex : option Z)
    (a : appointment) : bool :=
  (doctor_id a =? did)
  && (appointment_date a =? d)
  && negb (status_eqb (status a) cancelled)
  && (((appointment_time a <=? t) && (t <? end_time a))
      || ((appointment_time a <? time_pl_minutes t dur)
          && (time_pl_minutes t dur <=? end_time a)))
  && not_excluded ex a.

(** The row [a] with its status column set to [st]. *)
Definition with_status (a : appointment) (st : appointment_status)
  : appointment :=
  apply_assignments (mkAssignments None None None None None (Some st) None) a.

(** Specification, Schedule Repository: [loadSchedule(doctorId, date)], the
    appointments of the doctor and date whose status is not cancelled. *)
Definition spec_loadSchedule (rows : list appointment) (did d : Z)
  : list appointment :=
  filter (fun a =>
    (doctor_id a =? did) && (appointment_date a =? d)
    && negb (status_eqb (status a) cancelled)) rows.

(** A stored appointment that lies strictly inside the candidate. *)
Definition strictly_inside (t dur : Z) (a : appointment) : Prop :=
  t < appointment_time a
  /\ spec_end (appointment_time a) (duration_minutes a) < spec_end t dur.

(** Closed statements about sample data are settled by evaluation. *)
Ltac evaluate := cbv zeta; repeat split; vm_compute; reflexivity.

(** Case analysis on every test of a conditional in the goal. *)
Ltac split_ifs :=
  repeat match goal with
         | |- context [if ?b then _ else _] => destruct b
         end.

(** Case analysis on the outcome of the first statement of the goal. *)
Ltac case_result c :=
  match goal with
  | |- context [match ?r with Ok _ => _ | Err _ => _ end] => destruct r as c
  end.

(** PRIMARY KEY (id) as a property of a table. *)
Definition pkey_holds (rows : list appointment) : Prop :=
  NoDup (map id rows).

(** CONSTRAINT uq_doctor_datetime as a property of a table. *)
Definition uq_holds (rows : list appointment) : Prop :=
  forall a b,
    In a rows -> In b rows -> id a <> id b ->
    ~ (doctor_id a = doctor_id b
       /\ appointment_date a = appointment_date b
       /\ appointment_time a = appointment_time b).

(** The two foreign keys of [appointments] as a property of a database. *)
Definition fkeys_hold (db : database) : Prop :=
  forall a, In a (appointments db) ->
    patient_exists db (patient_id a) = true
    /\ doctor_exists db (doctor_id a) = true.

(** The declared constraints of the [appointments] table. *)
Definition constraints_hold (db : database) : Prop :=
  pkey_holds (appointments db) /\ uq_holds (appointments db)
  /\ fkeys_hold db.

(** Two rows that differ at most in their status column. *)
Definition same_but_status (a b : appointment) : Prop :=
  id a = id b /\ patient_id a = patient_id b /\ doctor_id a = doctor_id b
  /\ appointment_date a = appointment_date b
  /\ appointment_time a = appointment_time b
  /\ duration_minutes a = duration_minutes b /\ notes a = notes b.

(* ================================================================== *)
(** ** Properties                                                      *)
(* ================================================================== *)

(** *** Counting, existence and boolean tests *)

Lemma count_where_positive (P : appointment -> bool) rows :
  (0 <? count_where P rows) = existsb P rows.
Proof.
  unfold count_where.
  induction rows as [|a rows IH]; simpl; [reflexivity|].
  destruct (P a); simpl.
  - apply Z.ltb_lt. lia.
  - exact IH.
Qed.

Lemma count_where_zero (P : appointment -> bool) rows :
  (0 <? count_where P rows) = false -> forall b, In b rows -> P b = false.
Proof.
  rewrite count_where_positive. intros H b Hb.
  destruct (P b) eqn:E; [|reflexivity].
  rewrite <- H. symmetry. apply existsb_exists. now exists b.
Qed.

Lemma existsb_ext_in {A} (f g : A -> bool) l :
  (forall x, In x l -> f x = g x) -> existsb f l = existsb g l.
Proof.
  induction l as [|x l IH]; simpl; intros H; [reflexivity|].
  rewrite (H x (or_introl eq_refl)), IH; [reflexivity|].
  intros y Hy. apply H. now right.
Qed.

Lemma existsb_insert {A} (f : A -> bool) l1 x l2 :
  f x = false -> existsb f (l1 ++ x :: l2) = existsb f (l1 ++ l2).
Proof.
  intros Hx. rewrite !existsb_app. simpl. now rewrite Hx.
Qed.

Lemma status_eqb_eq a b : status_eqb a b = true <-> a = b.
Proof.
  destruct a, b; simpl; split; intros H; try reflexivity; discriminate.
Qed.

Lemma status_eqb_neq a b : status_eqb a b = false <-> a <> b.
Proof.
  destruct a, b; simpl; split; intros H; try reflexivity;
    try discriminate; try (exfalso; apply H; reflexivity);
    intros E; discriminate.
Qed.

(** Boolean tests of the WHERE clauses as propositions. *)
Create Rewrite HintDb where_clause.
#[local] Hint Rewrite andb_true_iff orb_true_iff negb_true_iff
  Z.eqb_eq Z.ltb_lt Z.leb_le status_eqb_neq filter_In : where_clause.

Lemma time_pl_minutes_small t n :
  0 <= t + 60 * n < SECS_PER_DAY -> time_pl_minutes t n = t + 60 * n.
Proof.
  intros H. unfold time_pl_minutes. now apply Z.mod_small.
Qed.

Lemma spec_overlaps_same_day a b :
  ends_same_day a -> ends_same_day b ->
  spec_overlaps (appointment_time a) (duration_minutes a)
                (appointment_time b) (duration_minutes b)
  = (appointment_time a <? end_time b) && (appointment_time b <? end_time a).
Proof.
  unfold ends_same_day, spec_overlaps, spec_end, end_time. intros Ha Hb.
  now rewrite !time_pl_minutes_small.
Qed.

(** *** The two conflict checks *)

Lemma checkOverlap_existsb rows did d t dur ex :
  checkOverlap rows did d t dur ex
  = existsb (checkOverlap_where did d t dur ex) rows.
Proof.
  unfold checkOverlap. now rewrite count_where_positive.
Qed.

Lemma check_appointment_conflict_existsb rows did d t dur ex :
  check_appointment_conflict rows did d t dur ex
  = existsb (checkOverlap_where did d t dur ex) rows.
Proof.
  unfold check_appointment_conflict. cbv zeta.
  rewrite count_where_positive.
  apply existsb_ext_in. intros a _. unfold checkOverlap_where.
  destruct (doctor_id a =? did), (appointment_date a =? d),
    (status_eqb (status a) cancelled), (not_excluded ex a); simpl;
    try reflexivity; now rewrite ?andb_true_r, ?andb_false_r.
Qed.

(** The stored function and the model method decide alike. *)
Lemma checkOverlap_agrees rows did d t dur ex :
  checkOverlap rows did d t dur ex
  = check_appointment_conflict rows did d t dur ex.
Proof.
  now rewrite checkOverlap_existsb, check_appointment_conflict_existsb.
Qed.

Lemma checkOverlap_where_cancelled did d t dur ex c :
  status c = cancelled -> checkOverlap_where did d t dur ex c = false.
Proof.
  intros H. unfold checkOverlap_where. rewrite H. simpl.
  now rewrite !andb_false_r.
Qed.

(** Both checks leave cancelled rows out, wherever they stand. *)
Lemma checkOverlap_ignores_cancelled S1 S2 c did d t dur ex :
  status c = cancelled ->
  checkOverlap (S1 ++ c :: S2) did d t dur ex
  = checkOverlap (S1 ++ S2) did d t dur ex.
Proof.
  intros H. rewrite !checkOverlap_existsb.
  apply existsb_insert. now apply checkOverlap_where_cancelled.
Qed.

Lemma check_appointment_conflict_ignores_cancelled S1 S2 c did d t dur ex :
  status c = cancelled ->
  check_appointment_conflict (S1 ++ c :: S2) did d t dur ex
  = check_appointment_conflict (S1 ++ S2) did d t dur ex.
Proof.
  intros H. rewrite <- !checkOverlap_agrees.
  now apply checkOverlap_ignores_cancelled.
Qed.


Lemma In_spec_loadSchedule a rows did d :
  In a (spec_loadSchedule rows did d)
  <-> In a rows /\ doctor_id a = did /\ appointment_date a = d
      /\ status a <> cancelled.
Proof.
  unfold spec_loadSchedule. autorewrite with where_clause. tauto.
Qed.

(** Whenever the code reports a conflict there is one, for appointments
    and a candidate that end before midnight. *)
Lemma checkOverlap_sound rows did d t dur ex :
  1 <= dur ->
  0 <= t + 60 * dur < SECS_PER_DAY ->
  (forall a, In a rows -> ends_same_day a) ->
  checkOverlap rows did d t dur ex = true ->
  spec_hasConflict (spec_loadSchedule rows did d) t dur ex = true.
Proof.
  intros Hdur Hc Hday. rewrite checkOverlap_existsb.
  unfold spec_hasConflict. rewrite !existsb_exists.
  intros [a [Hin Hw]]. exists a.
  unfold checkOverlap_where in Hw.
  pose proof (Hday a Hin) as Ha. unfold ends_same_day in Ha.
  unfold end_time in Hw.
  rewrite !time_pl_minutes_small in Hw by assumption.
  autorewrite with where_clause in Hw.
  destruct Hw as [[[[Hd Hdate] Hst] Hwin] Hex].
  split; [apply In_spec_loadSchedule; tauto|].
  rewrite Hex. simpl. unfold spec_overlaps, spec_end.
  autorewrite with where_clause. lia.
Qed.

(** A conflict that the code does not report comes from an appointment
    strictly inside the candidate. *)
Lemma checkOverlap_misses_only_contained rows did d t dur ex :
  0 <= t + 60 * dur < SECS_PER_DAY ->
  (forall a, In a rows -> ends_same_day a) ->
  spec_hasConflict (spec_loadSchedule rows did d) t dur ex = true ->
  checkOverlap rows did d t dur ex = false ->
  exists a, In a (spec_loadSchedule rows did d) /\ strictly_inside t dur a.
Proof.
  intros Hc Hday Hspec Hcode.
  unfold spec_hasConflict in Hspec. apply existsb_exists in Hspec.
  destruct Hspec as [a [Hin Hov]]. exists a. split; [assumption|].
  apply andb_true_iff in Hov. destruct Hov as [Hex Hov].
  rewrite checkOverlap_existsb in Hcode.
  apply In_spec_loadSchedule in Hin.
  destruct Hin as [Hin [Hd [Hdate Hst]]].
  assert (Hw : checkOverlap_where did d t dur ex a = false).
  { destruct (checkOverlap_where did d t dur ex a) eqn:E; [|reflexivity].
    rewrite <- Hcode. symmetry. apply existsb_exists. now exists a. }
  unfold checkOverlap_where in Hw.
  apply status_eqb_neq in Hst.
  rewrite Hd, Hdate, !Z.eqb_refl, Hst, Hex in Hw. simpl in Hw.
  rewrite andb_true_r in Hw.
  pose proof (Hday a Hin) as Ha. unfold ends_same_day in Ha.
  unfold end_time in Hw. rewrite !time_pl_minutes_small in Hw by assumption.
  unfold spec_overlaps, spec_end in Hov.
  apply andb_true_iff in Hov. rewrite !Z.ltb_lt in Hov.
  apply orb_false_iff in Hw. destruct Hw as [H1 H2].
  apply andb_false_iff in H1. apply andb_false_iff in H2.
  rewrite Z.leb_gt, Z.ltb_ge in H1. rewrite Z.ltb_ge, Z.leb_gt in H2.
  unfold strictly_inside, spec_end. lia.
Qed.

(** *** The slot grid *)






(** *** Answers of the routes *)

Lemma handleDatabaseError_codes e op :
  In (error (handleDatabaseError e op))
     (map Some ["DUPLICATE_ENTRY"; "FOREIGN_KEY_CONSTRAINT"; "DATA_TOO_LONG";
                "REQUIRED_FIELD_MISSING"; "DATABASE_ACCESS_DENIED";
                "DATABASE_UNAVAILABLE"; "DATABASE_CONNECTION_FAILED";
                "DATABASE_TIMEOUT"; "DATABASE_ERROR"]%string).
Proof.
  unfold handleDatabaseError. cbv zeta. split_ifs; simpl; tauto.
Qed.

Lemma handleDatabaseError_not_validation e op :
  error (handleDatabaseError e op) <> Some "VALIDATION_ERROR"%string.
Proof.
  intros H. pose proof (handleDatabaseError_codes e op) as Hc.
  rewrite H in Hc. simpl in Hc. intuition discriminate.
Qed.

Lemma handleDatabaseError_not_transition e op :
  error (handleDatabaseError e op) <> Some "INVALID_STATUS_TRANSITION"%string.
Proof.
  intros H. pose proof (handleDatabaseError_codes e op) as Hc.
  rewrite H in Hc. simpl in Hc. intuition discriminate.
Qed.

(** The object validateInput returns has no [length] property, so the
    test [validationErrors.length > 0] of the booking route is false. *)
Lemma validation_length_test_is_false v :
  gt_number (get (validation_object v) "length") 0 = false.
Proof. reflexivity. Qed.

(** The answers of the conflict step of the booking route. *)
Lemma booking_conflict_check_answers db did date t dur r :
  booking_conflict_check db did date t dur = Ok (Some r) ->
  http_status r = 409 /\ error r = Some "TIME_CONFLICT"%string.
Proof.
  unfold booking_conflict_check, Pg.bind.
  destruct (select_check_appointment_conflict db did date t dur) as [[|]|e1].
  - destruct (select_conflicts db did date t dur) as [c|e2].
    + intros H. injection H as <-. now split.
    + destruct (Appointment_checkOverlap db did date t dur None)
        as [[|]|e3]; intros H; try discriminate.
      injection H as <-. now split.
  - discriminate.
  - destruct (Appointment_checkOverlap db did date t dur None)
      as [[|]|e3]; intros H; try discriminate.
    injection H as <-. now split.
Qed.

(** The booking route never answers with VALIDATION_ERROR. *)
Lemma post_appointments_never_validation_error rt db body :
  error (fst (post_appointments rt db body))
  <> Some "VALIDATION_ERROR"%string.
Proof.
  unfold post_appointments. cbv zeta.
  rewrite validation_length_test_is_false.
  destruct (Patient_findById db (req_patient_id body)) as [[p|]|e]; simpl;
    try discriminate; try apply handleDatabaseError_not_validation.
  destruct (Doctor_findById db (req_doctor_id body)) as [[d|]|e]; simpl;
    try discriminate; try apply handleDatabaseError_not_validation.
  destruct (booking_conflict_check db _ _ _ _) as [[r|]|e] eqn:Hc;
    simpl; try apply handleDatabaseError_not_validation.
  - apply booking_conflict_check_answers in Hc as [_ ->]. discriminate.
  - destruct (Appointment_create rt db _) as [[n|e] db']; simpl;
      try discriminate; apply handleDatabaseError_not_validation.
Qed.

Lemma status_in_label st : status_in (status_label st) = Ok st.
Proof. destruct st; reflexivity. Qed.

Lemma status_label_valid st :
  existsb (String.eqb (status_label st)) validStatuses = true.
Proof. destruct st; reflexivity. Qed.

(** The one guard of the status route. *)
Lemma transition_guard cur requested :
  String.eqb (status_label cur) "completed"
  && String.eqb (status_label requested) "cancelled" = true
  <-> cur = completed /\ requested = cancelled.
Proof.
  destruct cur, requested; simpl; split; intros H;
    try discriminate; try (split; reflexivity);
    destruct H as [H1 H2]; discriminate.
Qed.

Lemma Appointment_findById_some db i a :
  Appointment_findById db i = Ok (Some a) ->
  int4_in i = Ok i /\ find (fun x => id x =? i) (appointments db) = Some a.
Proof.
  unfold Appointment_findById, Pg.bind, int4_in.
  destruct ((-2147483648 <=? i) && (i <=? 2147483647)); intros H.
  - injection H as H. now split.
  - discriminate.
Qed.

(** The status update once it has passed the guards of the route. *)
Lemma updateById_status rt db i a st :
  Appointment_findById db i = Ok (Some a) ->
  Appointment_updateById rt db i (status_only (status_label st))
  = match update_checks (NOW rt) db (with_status a st) with
    | Ok _ =>
        (Ok true,
         with_appointments db
           (replace_row (with_status a st) (appointments db)))
    | Err e => (Err e, db)
    end.
Proof.
  intros Hfind. apply Appointment_findById_some in Hfind as [Hi Hf].
  unfold Appointment_updateById, status_only. simpl no_fields. cbv iota.
  unfold nullable at 1 2 3 4 5. simpl Pg.bind.
  unfold nullable. rewrite status_in_label. simpl Pg.bind. rewrite Hi.
  simpl Pg.bind. cbv iota beta.
  unfold update_appointment. rewrite Hf. fold (with_status a st).
  destruct (update_checks (NOW rt) db (with_status a st)); reflexivity.
Qed.

(** The triggers of the table fire on a status update as on any UPDATE:
    once the start of an appointment has passed, trg_appt_no_past_update
    rejects the change of its status (here scheduled to checked_in, one
    second after the start), and the route answers 500. *)
Lemma status_update_after_the_start_is_rejected :
  let late := mkRuntime (21916 * 86400 + 32401) (21916 * 86400000)
                        iso_Date_parse in
  let db := sample_db [sample_row 1 32400 30 scheduled] 2 in
  let r := patch_appointment_status late db 1 (Some "checked_in"%string) in
  http_status (fst r) = 500 /\ snd r = db.
Proof. evaluate. Qed.

(** The uniqueness constraint looks at the key only: a row with the same
    doctor, date and start blocks the new row whatever its status. *)
Lemma uq_doctor_datetime_ignores_status rows c row :
  In c rows ->
  doctor_id c = doctor_id row ->
  appointment_date c = appointment_date row ->
  appointment_time c = appointment_time row ->
  exists e, uq_doctor_datetime rows row = Err e /\ code e = "23505"%string.
Proof.
  intros Hin Hd Hdate Ht. unfold uq_doctor_datetime.
  assert (E : existsb (fun b =>
                (doctor_id b =? doctor_id row)
                && (appointment_date b =? appointment_date row)
                && (appointment_time b =? appointment_time row)) rows = true).
  { apply existsb_exists. exists c. split; [assumption|].
    now rewrite Hd, Hdate, Ht, !Z.eqb_refl. }
  rewrite E. eexists. split; reflexivity.
Qed.

Lemma handleDatabaseError_status e op :
  In (http_status (handleDatabaseError e op)) [409; 400; 503; 500].
Proof.
  unfold handleDatabaseError. cbv zeta. split_ifs; simpl; tauto.
Qed.

Lemma int4_in_ok z z' : int4_in z = Ok z' -> z' = z.
Proof.
  unfold int4_in. destruct (_ && _); intros H; [|discriminate].
  now injection H.
Qed.

Lemma int2_in_ok z z' : int2_in z = Ok z' -> z' = z.
Proof.
  unfold int2_in. destruct (_ && _); intros H; [|discriminate].
  now injection H.
Qed.

(** An INSERT whose doctor, date and start are those of a stored row
    fails, whatever the status of that row. *)
Lemma insert_same_key_fails now db p did date t dur st n c dd tt :
  date_in date = Ok dd ->
  time_in t = Ok tt ->
  In c (appointments db) ->
  doctor_id c = did -> appointment_date c = dd -> appointment_time c = tt ->
  exists e,
    fst (insert_appointment now db p (Some did) (Some date) (Some t)
           dur st n) = Err e.
Proof.
  intros Hdate Htime Hin Hd Hdd Htt.
  unfold insert_appointment. cbv zeta.
  unfold nullable. rewrite Hdate, Htime. simpl int4_of_number.
  destruct (int4_of_number p) as [pid|e]; [|now exists e].
  simpl Pg.bind at 1.
  destruct (int4_in did) as [did'|e] eqn:Hdid; [|now exists e].
  apply int4_in_ok in Hdid. subst did'. simpl Pg.bind at 1.
  simpl Pg.bind at 1. simpl Pg.bind at 1.
  destruct (int2_in dur) as [dur'|e]; [|now exists e].
  simpl Pg.bind at 1.
  destruct (status_in st) as [st'|e]; [|now exists e].
  simpl Pg.bind at 1. cbv iota beta.
  destruct (trg_appt_no_overlap_check INSERT _ _) as [[]|e];
    [|now exists e].
  simpl Pg.bind at 1.
  destruct (trg_appt_no_past_check now _) as [[]|e]; [|now exists e].
  simpl Pg.bind at 1. unfold not_null_row. simpl Pg.bind at 1.
  destruct (appointments_pkey _ _) as [[]|e]; [|now exists e].
  simpl Pg.bind at 1.
  match goal with
  | |- context [uq_doctor_datetime ?rows ?row] =>
      destruct (uq_doctor_datetime_ignores_status rows c row Hin)
        as [e [He _]]; simpl; auto
  end.
  rewrite He. now exists e.
Qed.

(** No booking is answered 201 while a row with the same doctor, date and
    start is stored, cancelled or not. *)
Lemma post_appointments_same_start_is_never_booked
    rt db body did date t c dd tt :
  req_doctor_id body = Some did ->
  req_appointment_date body = Some date -> date_in date = Ok dd ->
  req_appointment_time body = Some t -> time_in t = Ok tt ->
  In c (appointments db) ->
  doctor_id c = did -> appointment_date c = dd -> appointment_time c = tt ->
  http_status (fst (post_appointments rt db body)) <> 201.
Proof.
  intros Hbd Hbdate Hdate Hbt Htime Hin Hd Hdd Htt.
  assert (Hfail : forall e op, http_status (handleDatabaseError e op) <> 201).
  { intros e op H. pose proof (handleDatabaseError_status e op) as Hs.
    rewrite H in Hs. simpl in Hs. intuition discriminate. }
  unfold post_appointments. cbv zeta.
  rewrite validation_length_test_is_false.
  destruct (Patient_findById db (req_patient_id body)) as [[p|]|e]; simpl;
    try discriminate; try apply Hfail.
  destruct (Doctor_findById db (req_doctor_id body)) as [[d|]|e]; simpl;
    try discriminate; try apply Hfail.
  destruct (booking_conflict_check db _ _ _ _) as [[r|]|e] eqn:Hc;
    simpl; try apply Hfail.
  - apply booking_conflict_check_answers in Hc as [-> _]. discriminate.
  - unfold Appointment_create, parseInt. simpl.
    rewrite Hbd, Hbdate, Hbt.
    match goal with
    | |- context [insert_appointment ?n ?b ?p (Some did) (Some date)
                    (Some t) ?du ?s ?no] =>
        destruct (insert_same_key_fails n b p did date t du s no c dd tt
                    Hdate Htime Hin Hd Hdd Htt) as [e He];
        destruct (insert_appointment n b p (Some did) (Some date)
                    (Some t) du s no) as [res db']
    end.
    simpl in He. subst res. simpl. apply Hfail.
Qed.

(** *** The write paths and the no-overlap invariant *)

Lemma replace_row_In x row rows :
  In x (replace_row row rows) ->
  x = row \/ (In x rows /\ id x <> id row).
Proof.
  unfold replace_row. rewrite in_map_iff. intros [a [Ha Hin]].
  destruct (id a =? id row) eqn:E.
  - left. now symmetry.
  - right. subst x. split; [assumption|]. now apply Z.eqb_neq.
Qed.

(** What a passed overlap trigger says about the other rows. *)
Lemma update_trigger_passes rows row :
  trg_appt_no_overlap_check UPDATE rows (as_new row) = Ok tt ->
  forall b, In b rows -> id b <> id row ->
    doctor_id b = doctor_id row ->
    appointment_date b = appointment_date row ->
    status b <> cancelled ->
    (appointment_time row <? end_time b)
    && (appointment_time b <? end_time row) = false.
Proof.
  unfold trg_appt_no_overlap_check. simpl. fold (end_time row).
  destruct (0 <? count_where _ rows) eqn:Hc; [discriminate|].
  intros _ b Hb Hid Hdoc Hdate Hst.
  pose proof (count_where_zero _ rows Hc b Hb) as H. simpl in H.
  rewrite Hdoc, Hdate, !Z.eqb_refl in H.
  apply Z.eqb_neq in Hid. rewrite Hid in H.
  apply status_eqb_neq in Hst. rewrite Hst in H.
  exact H.
Qed.

Lemma insert_trigger_passes rows NEW row :
  trg_appt_no_overlap_check INSERT rows NEW = Ok tt ->
  not_null_row NEW = Ok row ->
  forall b, In b rows ->
    doctor_id b = doctor_id row ->
    appointment_date b = appointment_date row ->
    status b <> cancelled ->
    (appointment_time row <? end_time b)
    && (appointment_time b <? end_time row) = false.
Proof.
  unfold trg_appt_no_overlap_check, not_null_row.
  destruct (new_appointment_date NEW) as [d|]; [|discriminate].
  destruct (new_appointment_time NEW) as [t|]; [|discriminate].
  destruct (0 <? count_where _ rows) eqn:Hc; [discriminate|].
  intros _ Hrow b Hb Hdoc Hdate Hst.
  injection Hrow as <-. simpl in *. unfold end_time at 2. simpl.
  pose proof (count_where_zero _ rows Hc b Hb) as H. simpl in H.
  rewrite Hdoc, Hdate, !Z.eqb_refl in H.
  apply status_eqb_neq in Hst. rewrite Hst in H.
  exact H.
Qed.

Lemma update_checks_trigger now db row :
  update_checks now db row = Ok tt ->
  trg_appt_no_overlap_check UPDATE (appointments db) (as_new row) = Ok tt.
Proof.
  unfold update_checks, Pg.bind.
  destruct (trg_appt_no_overlap_check UPDATE (appointments db) (as_new row))
    as [[]|e]; [reflexivity | discriminate].
Qed.

Section KeepsNoOverlap.

Variable rt : runtime.
Variable db : database.
Hypothesis invariant : no_overlap (appointments db).

(** An accepted UPDATE keeps the invariant, for tables whose appointments
    end before midnight. *)
Lemma replace_row_no_overlap row :
  update_checks (NOW rt) db row = Ok tt ->
  (forall a, In a (replace_row row (appointments db)) -> ends_same_day a) ->
  no_overlap (replace_row row (appointments db)).
Proof.
  intros Hchk Hday x y Hx Hy Hid Hdoc Hdate Hsx Hsy.
  pose proof (update_trigger_passes _ _
                (update_checks_trigger _ _ _ Hchk)) as Htrg.
  pose proof (Hday x Hx) as Dx. pose proof (Hday y Hy) as Dy.
  apply replace_row_In in Hx. apply replace_row_In in Hy.
  destruct Hx as [Ex|[Hx Nx]], Hy as [Ey|[Hy Ny]].
  - subst. contradiction.
  - subst x. rewrite spec_overlaps_same_day by assumption.
    apply Htrg; auto.
  - subst y. rewrite spec_overlaps_same_day by assumption.
    rewrite andb_comm. apply Htrg; auto.
  - apply invariant; assumption.
Qed.

Lemma update_appointment_no_overlap i s :
  (forall a, In a (appointments (snd (update_appointment (NOW rt) db i s))) ->
             ends_same_day a) ->
  no_overlap (appointments (snd (update_appointment (NOW rt) db i s))).
Proof.
  unfold update_appointment.
  destruct (find (fun a => id a =? i) (appointments db)) as [old|];
    [|intros _; exact invariant].
  destruct (update_checks (NOW rt) db (apply_assignments s old))
    as [[]|e] eqn:Hc; [|intros _; exact invariant].
  simpl. now apply replace_row_no_overlap.
Qed.

Lemma updateById_no_overlap i u :
  (forall a, In a (appointments (snd (Appointment_updateById rt db i u))) ->
             ends_same_day a) ->
  no_overlap (appointments (snd (Appointment_updateById rt db i u))).
Proof.
  unfold Appointment_updateById.
  destruct (no_fields u); [intros _; exact invariant|].
  case_result ipattern:([[n s]|e]); [|intros _; exact invariant].
  pose proof (update_appointment_no_overlap n s) as H.
  destruct (update_appointment (NOW rt) db n s) as [[rc|e] db']; exact H.
Qed.

Lemma insert_appointment_no_overlap p d date t dur st n :
  (forall a, In a (appointments
                     (snd (insert_appointment (NOW rt) db p d date t dur
                             st n))) ->
             ends_same_day a) ->
  no_overlap (appointments
                (snd (insert_appointment (NOW rt) db p d date t dur st n))).
Proof.
  unfold insert_appointment. cbv zeta.
  case_result ipattern:([NEW|e]); [|intros _; exact invariant].
  match goal with
  | |- context [match ?c with Ok _ => _ | Err _ => _ end] =>
      destruct c as [row|e] eqn:Hchk
  end; [|intros _; exact invariant].
  assert (Htrg : trg_appt_no_overlap_check INSERT (appointments db) NEW
                 = Ok tt
                 /\ not_null_row NEW = Ok row).
  { unfold Pg.bind in Hchk.
    destruct (trg_appt_no_overlap_check INSERT (appointments db) NEW)
      as [[]|]; [|discriminate].
    destruct (trg_appt_no_past_check (NOW rt) NEW); [|discriminate].
    destruct (not_null_row NEW) as [row'|]; [|discriminate].
    destruct (appointments_pkey (appointments db) row'); [|discriminate].
    destruct (uq_doctor_datetime (appointments db) row'); [|discriminate].
    destruct (appointments_fkeys db row'); [|discriminate].
    injection Hchk as ->. now split. }
  destruct Htrg as [Htrg Hrow].
  simpl. intros Hday x y Hx Hy Hid Hdoc Hdate Hsx Hsy.
  pose proof (insert_trigger_passes _ _ _ Htrg Hrow) as Hpass.
  pose proof (Hday x Hx) as Dx. pose proof (Hday y Hy) as Dy.
  apply in_app_or in Hx. apply in_app_or in Hy.
  destruct Hx as [Hx|[<-|[]]], Hy as [Hy|[<-|[]]].
  - apply invariant; assumption.
  - rewrite spec_overlaps_same_day by assumption.
    rewrite andb_comm. apply Hpass; auto.
  - rewrite spec_overlaps_same_day by assumption. apply Hpass; auto.
  - contradiction.
Qed.

(** Requests served one after the other: the booking route keeps the
    invariant, for tables whose appointments end before midnight. *)
Lemma post_appointments_keeps_no_overlap body :
  (forall a, In a (appointments (snd (post_appointments rt db body))) ->
             ends_same_day a) ->
  no_overlap (appointments (snd (post_appointments rt db body))).
Proof.
  unfold post_appointments. cbv zeta.
  rewrite validation_length_test_is_false.
  destruct (Patient_findById db (req_patient_id body)) as [[p|]|e];
    try (intros _; exact invariant).
  destruct (Doctor_findById db (req_doctor_id body)) as [[d|]|e];
    try (intros _; exact invariant).
  destruct (booking_conflict_check db _ _ _ _) as [[r|]|e];
    try (intros _; exact invariant).
  unfold Appointment_create.
  match goal with
  | |- context [insert_appointment ?n ?b ?p ?d ?da ?t ?du ?s ?no] =>
      pose proof (insert_appointment_no_overlap p d da t du s no) as H;
      destruct (insert_appointment n b p d da t du s no) as [[k|e] db']
  end; exact H.
Qed.

End KeepsNoOverlap.

(** Away from midnight the update path does keep the invariant: whatever
    fields an update supplies, if every appointment of the resulting table
    ends before midnight of its day, the table has no overlap.  The route's
    own check is skipped for partial updates, but every UPDATE passes
    through the trigger trg_appt_no_overlap_update, which compares the row
    with the other non-cancelled rows of the doctor and date. *)
Lemma put_appointments_keeps_no_overlap
    (rt : runtime) (db : database) (i : Z) (body : update_data) :
  no_overlap (appointments db) ->
  (forall a, In a (appointments (snd (put_appointments rt db i body))) ->
             ends_same_day a) ->
  no_overlap (appointments (snd (put_appointments rt db i body))).
Proof.
  intros Hinv. unfold put_appointments. cbv zeta.
  case_result ipattern:([[|]|e]); try (intros _; exact Hinv).
  pose proof (updateById_no_overlap rt db Hinv i body) as H.
  destruct (Appointment_updateById rt db i body) as [[[|]|e] db']; exact H.
Qed.

Lemma put_appointments_keeps_no_overlap_example :
  let db := sample_db [sample_row 1 32400 30 scheduled;
                       sample_row 2 36000 10 scheduled] 3 in
  let body := mkUpdate None None None (Some "09:30"%string) None None None in
  no_overlap (appointments db)
  /\ appointments (snd (put_appointments sample_runtime db 2 body))
     = [sample_row 1 32400 30 scheduled; sample_row 2 34200 10 scheduled]
  /\ no_overlap (appointments (snd (put_appointments sample_runtime db 2 body))).
Proof.
  cbv zeta.
  assert (Hinv : no_overlap
                   (appointments
                      (sample_db [sample_row 1 32400 30 scheduled;
                                  sample_row 2 36000 10 scheduled] 3))).
  { intros a b Ha Hb Hid _ _ _ _. simpl in Ha, Hb.
    destruct Ha as [<-|[<-|[]]], Hb as [<-|[<-|[]]];
      try reflexivity; exfalso; apply Hid; reflexivity. }
  split; [exact Hinv|]. split; [vm_compute; reflexivity|].
  apply put_appointments_keeps_no_overlap; [exact Hinv|].
  intros a Ha.
  assert (E : appointments
                (snd (put_appointments sample_runtime
                        (sample_db [sample_row 1 32400 30 scheduled;
                                    sample_row 2 36000 10 scheduled] 3) 2
                        (mkUpdate None None None (Some "09:30"%string)
                                  None None None)))
              = [sample_row 1 32400 30 scheduled;
                 sample_row 2 34200 10 scheduled])
    by (vm_compute; reflexivity).
  rewrite E in Ha. simpl in Ha.
  destruct Ha as [<-|[<-|[]]]; unfold ends_same_day, SECS_PER_DAY; simpl; lia.
Qed.

(** A partial update into an occupied interval is stopped by the trigger,
    not by the route: the answer is 500 and nothing is stored. *)
Lemma partial_update_into_conflict_is_stopped_by_trigger :
  let db := sample_db [sample_row 1 32400 30 scheduled;
                       sample_row 2 36000 10 scheduled] 3 in
  let r := put_appointments sample_runtime db 2
             (mkUpdate None None None (Some "09:15"%string) None None None) in
  http_status (fst r) = 500 /\ snd r = db.
Proof. evaluate. Qed.

(* ================================================================== *)
(** ** The claims                                                      *)
(* ================================================================== *)

(** C1 (the code misses a case).  The schedule holds one scheduled
    appointment, 09:15 for 15 minutes; the candidate is 09:00 for 60
    minutes.  The two intervals overlap, yet Appointment.checkOverlap and
    check_appointment_conflict both report no conflict, because neither the
    candidate's start nor its end lies inside the stored appointment.  The
    booking route then runs into the overlap trigger and answers 500
    instead of 409. *)
Theorem C1_contained_appointment_is_missed :
  let schedule := [sample_row 1 33300 15 scheduled] in
  spec_hasConflict schedule 32400 60 None = true
  /\ checkOverlap schedule 1 21916 32400 60 None = false
  /\ check_appointment_conflict schedule 1 21916 32400 60 None = false
  /\ http_status
       (fst (post_appointments sample_runtime (sample_db schedule 2)
               (sample_booking "09:00" (Some 60)))) = 500.
Proof. evaluate. Qed.

(** C3, counterexample.  A cancelled appointment is set back to scheduled
    by the status route (answer 200, the row is updated), although
    cancelled to scheduled is not an edge of the specification's table. *)
Lemma C3_cancelled_can_be_reopened :
  let db := sample_db [sample_row 1 32400 30 cancelled] 2 in
  let r := patch_appointment_status sample_runtime db 1
             (Some "scheduled"%string) in
  spec_transition_allowed cancelled scheduled = false
  /\ http_status (fst r) = 200
  /\ appointments (snd r) = [sample_row 1 32400 30 scheduled].
Proof. evaluate. Qed.

(** C3, as amended.  For a stored appointment and a requested status among
    the four, the status route refuses the change with
    INVALID_STATUS_TRANSITION if and only if the current status is
    completed and the requested one is cancelled, and then answers 400 and
    leaves the database unchanged.  Every other pair (cancelled to
    scheduled, completed to scheduled, a status to itself, ...) is passed to
    the UPDATE; when the triggers and constraints of the table accept the
    row, the answer is 200 and the row carries the requested status. *)
Theorem C3_only_completed_to_cancelled_is_refused
    (rt : runtime) (db : database) (i : Z) (a : appointment)
    (requested : appointment_status) :
  0 < i ->
  Appointment_findById db i = Ok (Some a) ->
  let r := patch_appointment_status rt db i
             (Some (status_label requested)) in
  (error (fst r) = Some "INVALID_STATUS_TRANSITION"%string
   <-> status a = completed /\ requested = cancelled)
  /\ (status a = completed /\ requested = cancelled ->
      http_status (fst r) = 400 /\ snd r = db)
  /\ (~ (status a = completed /\ requested = cancelled) ->
      update_checks (NOW rt) db (with_status a requested) = Ok tt ->
      http_status (fst r) = 200
      /\ appointments (snd r)
         = replace_row (with_status a requested) (appointments db)).
Proof.
  intros Hi Hfind. cbv zeta.
  unfold patch_appointment_status. cbv zeta.
  rewrite (proj2 (Z.leb_gt i 0) Hi).
  rewrite status_label_valid. simpl negb. cbv iota.
  rewrite Hfind. unfold row_status.
  rewrite (updateById_status rt db i a requested Hfind).
  destruct (String.eqb (status_label (status a)) "completed"
            && String.eqb (status_label requested) "cancelled") eqn:Hg.
  - apply transition_guard in Hg. simpl.
    split; [tauto|]. split; [tauto|]. intros Hn. contradiction.
  - assert (Hn : ~ (status a = completed /\ requested = cancelled)).
    { intros H. apply transition_guard in H. congruence. }
    split; [|split].
    + split; [|tauto].
      destruct (update_checks (NOW rt) db (with_status a requested));
        simpl; intros H; [discriminate|].
      exfalso. revert H. apply handleDatabaseError_not_transition.
    + tauto.
    + intros _ Hok. rewrite Hok. simpl. split; reflexivity.
Qed.

Lemma C3_status_update_witness :
  let db := sample_db [sample_row 1 32400 30 scheduled] 2 in
  let r := patch_appointment_status sample_runtime db 1
             (Some (status_label checked_in)) in
  (0 < 1 /\ Appointment_findById db 1
            = Ok (Some (sample_row 1 32400 30 scheduled)))
  /\ http_status (fst r) = 200
  /\ appointments (snd r) = [sample_row 1 32400 30 checked_in].
Proof.
  cbv zeta.
  assert (Hn : ~ (status (sample_row 1 32400 30 scheduled) = completed
                  /\ checked_in = cancelled))
    by (intros [H _]; discriminate).
  split; [split; [lia | reflexivity]|].
  exact (proj2 (proj2
           (C3_only_completed_to_cancelled_is_refused sample_runtime
              (sample_db [sample_row 1 32400 30 scheduled] 2) 1
              (sample_row 1 32400 30 scheduled) checked_in
              eq_refl eq_refl)) Hn eq_refl).
Defined.

(** C4 (the uniqueness constraint counts cancelled rows).  The only
    appointment of the doctor and date is cancelled, 09:00 for 30 minutes.
    A new booking for 09:00 and 30 minutes passes the conflict check and
    the overlap trigger, but the INSERT violates uq_doctor_datetime, and
    the route answers 409 DUPLICATE_ENTRY without storing anything. *)
Theorem C4_cancelled_row_blocks_same_start :
  let db := sample_db [sample_row 1 32400 30 cancelled] 2 in
  let r := post_appointments sample_runtime db
             (sample_booking "09:00" (Some 30)) in
  select_check_appointment_conflict db (Some 1) (Some "2030-01-02"%string)
    (Some "09:00"%string) 30 = Ok false
  /\ http_status (fst r) = 409
  /\ error (fst r) = Some "DUPLICATE_ENTRY"%string
  /\ appointments (snd r) = appointments db.
Proof. evaluate. Qed.

(** C5 (the code does not act on its validation).  The request for 09:00
    with a duration of 5 minutes fails the duration rule of validateInput,
    yet the route answers 201 and the appointment of 5 minutes is stored:
    the route tests [validationErrors.length > 0] on the object that
    validateInput returns, which has no [length].  A date in the past and a
    malformed time are stopped only by the database, with 500
    DATABASE_ERROR instead of a validation error. *)
Theorem C5_invalid_duration_is_booked :
  let db := sample_db [] 1 in
  let short := post_appointments sample_runtime db
                 (sample_booking "09:00" (Some 5)) in
  let past := post_appointments sample_runtime db
                (mkBooking (Some 1) (Some 1) (Some "2020-01-02"%string)
                           (Some "09:00"%string) (Some 30) None) in
  let malformed := post_appointments sample_runtime db
                     (sample_booking "9 o'clock" (Some 30)) in
  errors (validate_booking sample_runtime (Some 1) (Some 1)
            (Some "2030-01-02"%string) (Some "09:00"%string) 5 EmptyString)
  = ["Duration must be between 15 and 240 minutes"%string]
  /\ http_status (fst short) = 201
  /\ appointments (snd short) = [sample_row 1 32400 5 scheduled]
  /\ (http_status (fst past), error (fst past))
     = (500, Some "DATABASE_ERROR"%string)
  /\ (http_status (fst malformed), error (fst malformed))
     = (500, Some "DATABASE_ERROR"%string).
Proof. evaluate. Qed.

(** C6 (the code misses a case).  Doctor 1 has a scheduled appointment
    23:30 for 30 minutes (it ends at midnight) and one at 10:00 for 10
    minutes, which satisfies the no-overlap invariant.  The partial update
    that moves the second to 23:40 is stored (answer 200), and the two
    appointments then overlap.  The route ran no conflict check: it is
    meant to check whenever time-related fields are updated, but calls
    Appointment.checkOverlap only when doctor_id, appointment_date,
    appointment_time and duration_minutes are all supplied; and the trigger
    trg_appt_no_overlap_update, which checks every UPDATE, adds the
    duration to a TIME, so that the end of the first appointment wraps to
    00:00 and is not after 23:40.  The same move with all four fields
    supplied is stored as well. *)
Theorem C6_partial_update_overlaps_at_midnight :
  let db := sample_db [sample_row 1 84600 30 scheduled;
                       sample_row 2 36000 10 scheduled] 3 in
  let r := put_appointments sample_runtime db 2
             (mkUpdate None None None (Some "23:40"%string) None None None) in
  let full := put_appointments sample_runtime db 2
                (mkUpdate None (Some 1) (Some "2030-01-02"%string)
                          (Some "23:40"%string) (Some 10) None None) in
  no_overlap (appointments db)
  /\ http_status (fst r) = 200
  /\ appointments (snd r) = [sample_row 1 84600 30 scheduled;
                            sample_row 2 85200 10 scheduled]
  /\ snd full = snd r
  /\ ~ no_overlap (appointments (snd r)).
Proof.
  cbv zeta. split; [|split; [|split; [|split]]];
    try (vm_compute; reflexivity).
  - intros a b Ha Hb Hid _ _ _ _. simpl in Ha, Hb.
    destruct Ha as [<-|[<-|[]]], Hb as [<-|[<-|[]]];
      try reflexivity; exfalso; apply Hid; reflexivity.
  - intros H.
    assert (E : appointments
                  (snd (put_appointments sample_runtime
                          (sample_db [sample_row 1 84600 30 scheduled;
                                      sample_row 2 36000 10 scheduled] 3) 2
                          (mkUpdate None None None (Some "23:40"%string)
                                    None None None)))
                = [sample_row 1 84600 30 scheduled;
                   sample_row 2 85200 10 scheduled])
      by (vm_compute; reflexivity).
    rewrite E in H.
    specialize (H (sample_row 1 84600 30 scheduled)
                  (sample_row 2 85200 10 scheduled)).
    simpl in H.
    assert (F : true = false) by (apply H; auto; discriminate).
    discriminate.
Qed.

(** C7 (the code misses the status filter in one function).  With the
    cancelled appointment 09:00 for 30 minutes as the only row, the
    candidate 09:00 for 30 minutes is reported as an overlap by
    check_doctor_overlap, although the empty schedule gives none:
    check_doctor_overlap has no [status != 'cancelled'] condition. *)
Theorem C7_check_doctor_overlap_counts_cancelled :
  let c := sample_row 1 32400 30 cancelled in
  status c = cancelled
  /\ check_doctor_overlap [c] 1 21916 32400 30 None = 1
  /\ check_doctor_overlap [] 1 21916 32400 30 None = 0.
Proof. evaluate. Qed.





(** C10.  A booking request without durationMinutes is handled exactly as
    the same request with a duration of 30 minutes, and Appointment.create
    called without a duration stores what it stores for 30; for instance the
    request for 09:00 without a duration is answered 201 and the stored row
    has a duration of 30 minutes. *)
Theorem C10_duration_defaults_to_30
    (rt : runtime) (db : database) (patient_ doctor_ : option Z)
    (date_ time_ notes_ status_ : option string) :
  post_appointments rt db (mkBooking patient_ doctor_ date_ time_ None notes_)
  = post_appointments rt db
      (mkBooking patient_ doctor_ date_ time_ (Some 30) notes_)
  /\ Appointment_create rt db
       (mkCreate patient_ doctor_ date_ time_ None status_ notes_)
     = Appointment_create rt db
         (mkCreate patient_ doctor_ date_ time_ (Some 30) status_ notes_)
  /\ (let r := post_appointments sample_runtime (sample_db [] 1)
                 (sample_booking "09:00" None) in
      http_status (fst r) = 201
      /\ appointments (snd r) = [sample_row 1 32400 30 scheduled]).
Proof.
  split; [reflexivity|]. split; [reflexivity|]. evaluate.
Qed.

(* ================================================================== *)
(** ** Further properties of the conflict checks                       *)
(* ================================================================== *)

Lemma existsb_filter {A} (p f : A -> bool) l :
  existsb f (filter p l) = existsb (fun x => p x && f x) l.
Proof.
  induction l as [|x l IH]; simpl; [reflexivity|].
  destruct (p x); simpl; now rewrite IH.
Qed.

(** X1.  Appointment.checkOverlap, the fallback of the booking route, and
    the stored function check_appointment_conflict give the same answer
    for every table, candidate and excluded id. *)
Theorem X1_fallback_agrees_with_stored_function
    (rows : list appointment) (did d t dur : Z) (ex : option Z) :
  checkOverlap rows did d t dur ex
  = check_appointment_conflict rows did d t dur ex.
Proof. apply checkOverlap_agrees. Qed.

(** X2.  The answer of both conflict checks depends only on the rows of
    the asked doctor and date whose status is not cancelled: rows of other
    doctors, of other dates and cancelled rows can be dropped from the
    table without changing it. *)
Theorem X2_conflict_checks_read_only_the_schedule
    (rows : list appointment) (did d t dur : Z) (ex : option Z) :
  checkOverlap rows did d t dur ex
  = checkOverlap (spec_loadSchedule rows did d) did d t dur ex
  /\ check_appointment_conflict rows did d t dur ex
     = check_appointment_conflict (spec_loadSchedule rows did d)
         did d t dur ex.
Proof.
  assert (H : checkOverlap rows did d t dur ex
              = checkOverlap (spec_loadSchedule rows did d) did d t dur ex).
  { rewrite !checkOverlap_existsb. unfold spec_loadSchedule.
    rewrite existsb_filter. apply existsb_ext_in. intros a _.
    unfold checkOverlap_where.
    destruct (doctor_id a =? did), (appointment_date a =? d),
      (status_eqb (status a) cancelled); reflexivity. }
  split; [exact H|]. now rewrite <- !checkOverlap_agrees.
Qed.

(** X3.  For a candidate of at least one minute and appointments that all
    end before midnight, Appointment.checkOverlap reports a conflict
    exactly when some appointment of the schedule, other than the excluded
    one, overlaps the candidate without lying strictly inside it (that is,
    it covers the candidate's start or the candidate's end). *)
Theorem X3_checkOverlap_characterised
    (rows : list appointment) (did d t dur : Z) (ex : option Z) :
  1 <= dur ->
  0 <= t + 60 * dur < SECS_PER_DAY ->
  (forall a, In a rows -> ends_same_day a) ->
  checkOverlap rows did d t dur ex = true
  <-> exists a,
        In a (spec_loadSchedule rows did d)
        /\ not_excluded ex a = true
        /\ spec_overlaps (appointment_time a) (duration_minutes a) t dur
           = true
        /\ ~ strictly_inside t dur a.
Proof.
  intros Hdur Hc Hday. rewrite checkOverlap_existsb, existsb_exists.
  split.
  - intros [a [Hin Hw]]. exists a.
    pose proof (Hday a Hin) as Ha. unfold ends_same_day in Ha.
    unfold checkOverlap_where, end_time in Hw.
    rewrite !time_pl_minutes_small in Hw by assumption.
    autorewrite with where_clause in Hw.
    destruct Hw as [[[[Hd Hdate] Hst] Hwin] Hex].
    split; [apply In_spec_loadSchedule; tauto|].
    split; [assumption|].
    unfold spec_overlaps, strictly_inside, spec_end.
    autorewrite with where_clause. lia.
  - intros [a [Hin [Hex [Hov Hns]]]]. exists a.
    apply In_spec_loadSchedule in Hin.
    destruct Hin as [Hin [Hd [Hdate Hst]]]. split; [assumption|].
    pose proof (Hday a Hin) as Ha. unfold ends_same_day in Ha.
    unfold checkOverlap_where, end_time.
    rewrite !time_pl_minutes_small by assumption.
    apply status_eqb_neq in Hst.
    rewrite Hd, Hdate, !Z.eqb_refl, Hst, Hex.
    cbn [andb negb]. rewrite andb_true_r.
    unfold spec_overlaps, strictly_inside, spec_end in *.
    autorewrite with where_clause in *. lia.
Qed.

Lemma X3_checkOverlap_characterised_witness :
  checkOverlap [sample_row 1 32400 30 scheduled] 1 21916 33300 30 None = true
  <-> exists a,
        In a (spec_loadSchedule [sample_row 1 32400 30 scheduled] 1 21916)
        /\ not_excluded None a = true
        /\ spec_overlaps (appointment_time a) (duration_minutes a) 33300 30
           = true
        /\ ~ strictly_inside 33300 30 a.
Proof.
  apply X3_checkOverlap_characterised.
  - lia.
  - unfold SECS_PER_DAY. lia.
  - intros a [<-|[]]. unfold ends_same_day, SECS_PER_DAY. simpl. lia.
Defined.
